(** * Laboratory management system: inventory and experiment engine

    A shallow embedding of the two implementations found in the repository:

    - [Split]: the module variant ([models.py], [managers.py],
      [laboratory_system.py], [calculators.py]);
    - [Mono]: the single-script variant ([Laboratorio Quimico.py]).

    Conventions of the embedding.

    - Python numbers are idealised as rationals ([Q]); division is made
      explicit and raises [ZeroDivisionError] on a zero divisor, as Python
      does.
    - A calendar date is its day ordinal ([Z]); a [datetime] is a day ordinal
      together with the microseconds elapsed since midnight.  A date string
      produced by [strftime "%Y-%m-%d"] is identified with the date it
      denotes, so [strptime] of such a string is the identity.
    - [datetime.now()] is an explicit argument [now]; the clock does not
      advance during one call.
    - Python dictionaries that the code iterates over are insertion-ordered
      association lists ([dict]); the keyed stores of the managers, which the
      modelled code only reads and writes by key, are [gmap]s.
    - Mutation of [self] is explicit state passing; a raised exception keeps
      the state reached so far ([outcome]).
    - [models.py] takes [Validator] from [laboratory_system], which does not
      define it; the embedding gives it the [Validator] of the script.
    - The error kinds of the specification are, in the code: [None] or
      [False] returned by the module variant, an error message returned by
      the script ([Mono.error]), and [ValueError] raised by a constructor. *)

From Stdlib Require Import ZArith QArith Lqa String Ascii List Bool Lia.
From stdpp Require Import base option gmap strings list pretty.
Import ListNotations.

Local Open Scope string_scope.
Local Open Scope Z_scope.
Local Open Scope list_scope.

(** ** Python runtime: exceptions, results, state *)

Inductive exn : Type :=
  | ValueError
  | AttributeError
  | ZeroDivisionError
  | KeyError
  | TypeError.

(** A pure computation that may raise. *)
Inductive res (A : Type) : Type :=
  | Ok (a : A)
  | Err (e : exn).
Arguments Ok {A} a.
Arguments Err {A} e.

Definition res_bind {A B} (c : res A) (k : A -> res B) : res B :=
  match c with
  | Ok a => k a
  | Err e => Err e
  end.

(** A computation on a mutable object of type [S]: it returns a value or
    raises, and in both cases leaves the object in some state. *)
Inductive outcome (S A : Type) : Type :=
  | Ret (a : A) (s : S)
  | Raise (e : exn) (s : S).
Arguments Ret {S A} a s.
Arguments Raise {S A} e s.

Definition M (S A : Type) : Type := S -> outcome S A.

Definition ret {S A} (a : A) : M S A := fun s => Ret a s.
Definition raise {S A} (e : exn) : M S A := fun s => Raise e s.
Definition bind {S A B} (c : M S A) (k : A -> M S B) : M S B :=
  fun s => match c s with
           | Ret a s' => k a s'
           | Raise e s' => Raise e s'
           end.
Definition get {S} : M S S := fun s => Ret s s.
Definition put {S} (s : S) : M S unit := fun _ => Ret tt s.
Definition lift {S A} (c : res A) : M S A :=
  fun s => match c with
           | Ok a => Ret a s
           | Err e => Raise e s
           end.

Declare Scope py_scope.
Delimit Scope py_scope with py.
Notation "x <- c ;; k" := (bind c (fun x => k))
  (at level 100, c at next level, right associativity) : py_scope.
Notation "c ;;; k" := (bind c (fun _ => k))
  (at level 100, right associativity) : py_scope.
Notation "'try!' x <- c ;; k" := (res_bind c (fun x => k))
  (at level 100, x name, c at next level, right associativity) : py_scope.

(** [for x in l: body(x)] *)
Fixpoint for_each {S A} (l : list A) (body : A -> M S unit) : M S unit :=
  match l with
  | [] => ret tt
  | x :: l' => bind (body x) (fun _ => for_each l' body)
  end.

Definition state_of {S A} (o : outcome S A) : S :=
  match o with
  | Ret _ s => s
  | Raise _ s => s
  end.

(** ** Numbers *)

Definition Qlt_bool (x y : Q) : bool := negb (Qle_bool y x).

(** [lo <= v <= hi] *)
Definition in_range (lo v hi : Q) : bool := Qle_bool lo v && Qle_bool v hi.

(** [x / y] on Python numbers. *)
Definition py_div (x y : Q) : res Q :=
  if Qeq_bool y 0 then Err ZeroDivisionError else Ok (x / y)%Q.

(** ** Dates *)

Record datetime : Type := { dt_day : Z; dt_micro : Z }.

(** [strptime s "%Y-%m-%d"]: midnight of the day. *)
Definition midnight (d : Z) : datetime := {| dt_day := d; dt_micro := 0 |}.

(** [a > b] on datetimes. *)
Definition datetime_gtb (a b : datetime) : bool :=
  (dt_day b <? dt_day a) || ((dt_day b =? dt_day a) && (dt_micro b <? dt_micro a)).

(** [dt + timedelta(days=n)] *)
Definition add_days (dt : datetime) (n : Z) : datetime :=
  {| dt_day := dt_day dt + n; dt_micro := dt_micro dt |}.

(** ** Insertion-ordered dictionaries *)

Definition dict (V : Type) : Type := list (string * V).

Fixpoint dict_get {V} (k : string) (d : dict V) : option V :=
  match d with
  | [] => None
  | (k', v) :: d' => if String.eqb k k' then Some v else dict_get k d'
  end.

Definition dict_mem {V} (k : string) (d : dict V) : bool :=
  match dict_get k d with
  | Some _ => true
  | None => false
  end.

(** [d[k] = v]: an existing key keeps its position, a new key goes last. *)
Fixpoint dict_set {V} (k : string) (v : V) (d : dict V) : dict V :=
  match d with
  | [] => [(k, v)]
  | (k', v') :: d' =>
      if String.eqb k k' then (k, v) :: d' else (k', v') :: dict_set k v d'
  end.

Definition dict_keys {V} (d : dict V) : list string := map fst d.

(** ** Validator ([Laboratorio Quimico.py]) *)

Module Validator.

(** Whitespace removed by [str.strip()], on single-byte characters. *)
Definition is_space (c : ascii) : bool :=
  let n := nat_of_ascii c in
  ((9 <=? n)%nat && (n <=? 13)%nat) || ((28 <=? n)%nat && (n <=? 32)%nat).

Fixpoint lstrip (s : list ascii) : list ascii :=
  match s with
  | c :: s' => if is_space c then lstrip s' else s
  | [] => []
  end.

Definition strip (s : string) : string :=
  string_of_list_ascii
    (rev (lstrip (rev (lstrip (list_ascii_of_string s))))).

(** [if not isinstance(value, str) or not value.strip(): raise ValueError]
    (the argument is a string by typing). *)
Definition validate_string (value : string) : res string :=
  if String.eqb (strip value) "" then Err ValueError else Ok (strip value).

(** [num = float(value); if num <= 0: raise ValueError] *)
Definition validate_positive_number (value : Q) : res Q :=
  if Qle_bool value 0 then Err ValueError else Ok value.

(** [if not date_str: return None], otherwise the string is parsed; the
    argument is a date string in the sense of the conventions above, so the
    parse succeeds. *)
Definition validate_date_format (date_str : option Z) : res (option Z) :=
  Ok date_str.

End Validator.

(** ** The module variant *)

Module Split.

(** *** [models.py]: Reagent *)

Record Transaction : Type := {
  t_date : Z;
  t_amount : Q;
  t_reason : string;
  t_new_level : Q
}.

Record Reagent : Type := {
  r_name : string;
  r_description : string;
  r_cost : Q;
  r_category : string;
  r_inventory : Q;
  r_unit : string;
  r_min_threshold : Q;
  r_expiry_date : option datetime;
  r_location : string;
  r_safety_info : dict string;
  r_purchase_history : list Transaction;
  r_usage_history : list Transaction
}.

Definition set_inventory (r : Reagent) (q : Q) : Reagent :=
  {| r_name := r_name r; r_description := r_description r;
     r_cost := r_cost r; r_category := r_category r;
     r_inventory := q; r_unit := r_unit r;
     r_min_threshold := r_min_threshold r;
     r_expiry_date := r_expiry_date r; r_location := r_location r;
     r_safety_info := r_safety_info r;
     r_purchase_history := r_purchase_history r;
     r_usage_history := r_usage_history r |}.

Definition set_histories (r : Reagent) (p u : list Transaction) : Reagent :=
  {| r_name := r_name r; r_description := r_description r;
     r_cost := r_cost r; r_category := r_category r;
     r_inventory := r_inventory r; r_unit := r_unit r;
     r_min_threshold := r_min_threshold r;
     r_expiry_date := r_expiry_date r; r_location := r_location r;
     r_safety_info := r_safety_info r;
     r_purchase_history := p;
     r_usage_history := u |}.

(** [Reagent.__init__] *)
Definition Reagent_init (name description : string) (cost : Q)
    (category : string) (inventory : Q) (unit_ : string)
    (min_threshold : Q) (expiry_date : option Z)
    (location : option string) (safety_info : option (dict string))
    : res Reagent :=
  (try! _ <- Validator.validate_string name ;;
   try! _ <- Validator.validate_string description ;;
   try! _ <- Validator.validate_positive_number cost ;;
   try! _ <- Validator.validate_string category ;;
   try! _ <- Validator.validate_positive_number inventory ;;
   try! _ <- Validator.validate_string unit_ ;;
   try! _ <- Validator.validate_positive_number min_threshold ;;
   try! _ <- Validator.validate_date_format expiry_date ;;
   Ok {| r_name := name; r_description := description; r_cost := cost;
         r_category := category; r_inventory := inventory;
         r_unit := unit_; r_min_threshold := min_threshold;
         r_expiry_date := option_map midnight expiry_date;
         r_location :=
           match location with
           | Some l => if String.eqb l "" then "Almacén general" else l
           | None => "Almacén general"
           end;
         r_safety_info :=
           match safety_info with
           | Some i => i
           | None => []
           end;
         r_purchase_history := [];
         r_usage_history := [] |})%py.

(** [Reagent.update_inventory]: the returned boolean and the reagent after
    the call. *)
Definition update_inventory (now : datetime) (amount : Q) (reason : string)
    (r : Reagent) : bool * Reagent :=
  let new_inventory := (r_inventory r + amount)%Q in
  if Qlt_bool new_inventory 0 then (false, r)
  else
    let r1 := set_inventory r new_inventory in
    let transaction :=
      {| t_date := dt_day now; t_amount := amount; t_reason := reason;
         t_new_level := new_inventory |} in
    if Qlt_bool 0 amount
    then (true, set_histories r1 (r_purchase_history r1 ++ [transaction])
                                 (r_usage_history r1))
    else (true, set_histories r1 (r_purchase_history r1)
                                 (r_usage_history r1 ++ [transaction])).

(** [Reagent.is_expired]: [datetime.now() > self.expiry_date]. *)
Definition is_expired (now : datetime) (r : Reagent) : bool :=
  match r_expiry_date r with
  | None => false
  | Some expiry => datetime_gtb now expiry
  end.

Definition is_low_stock (r : Reagent) : bool :=
  Qle_bool (r_inventory r) (r_min_threshold r).

(** The dictionary built by [Reagent.to_dict] and read by
    [Reagent.from_dict]; the keys read with [data.get] may be absent. *)
Record ReagentData : Type := {
  rd_name : string;
  rd_description : string;
  rd_cost : Q;
  rd_category : string;
  rd_inventory : Q;
  rd_unit : string;
  rd_min_threshold : Q;
  rd_expiry_date : option Z;
  rd_location : option string;
  rd_safety_info : option (dict string);
  rd_purchase_history : option (list Transaction);
  rd_usage_history : option (list Transaction)
}.

Definition Reagent_to_dict (r : Reagent) : ReagentData :=
  {| rd_name := r_name r; rd_description := r_description r;
     rd_cost := r_cost r; rd_category := r_category r;
     rd_inventory := r_inventory r; rd_unit := r_unit r;
     rd_min_threshold := r_min_threshold r;
     rd_expiry_date := option_map dt_day (r_expiry_date r);
     rd_location := Some (r_location r);
     rd_safety_info := Some (r_safety_info r);
     rd_purchase_history := Some (r_purchase_history r);
     rd_usage_history := Some (r_usage_history r) |}.

Definition Reagent_from_dict (data : ReagentData) : res Reagent :=
  (try! reagent <-
     Reagent_init (rd_name data) (rd_description data) (rd_cost data)
       (rd_category data) (rd_inventory data) (rd_unit data)
       (rd_min_threshold data) (rd_expiry_date data) (rd_location data)
       (Some (default [] (rd_safety_info data))) ;;
   Ok (set_histories reagent
         (default [] (rd_purchase_history data))
         (default [] (rd_usage_history data))))%py.

(** *** [models.py]: Recipe *)

Record Recipe : Type := {
  rc_name : string;
  rc_objective : string;
  rc_reagents : dict Q;
  rc_procedure : list string;
  rc_expected_results : dict (Q * Q)
}.

(** The loop over [expected_results.items()] of [Recipe.__init__]. *)
Fixpoint check_ranges (expected : dict (Q * Q)) : res unit :=
  match expected with
  | [] => Ok tt
  | (_, (min_val, max_val)) :: rest =>
      if Qlt_bool max_val min_val then Err ValueError
      else check_ranges rest
  end.

Definition Recipe_init (name objective : string) (reagents : dict Q)
    (procedure : list string) (expected_results : dict (Q * Q))
    : res Recipe :=
  (try! _ <- Validator.validate_string name ;;
   try! _ <- Validator.validate_string objective ;;
   match reagents with
   | [] => Err ValueError
   | _ :: _ =>
       match procedure with
       | [] => Err ValueError
       | _ :: _ =>
           try! _ <- check_ranges expected_results ;;
           Ok {| rc_name := name; rc_objective := objective;
                 rc_reagents := reagents; rc_procedure := procedure;
                 rc_expected_results := expected_results |}
       end
   end)%py.

(** [Recipe.validate_reagents] *)
Fixpoint validate_reagents_loop (now : datetime)
    (available : gmap string Reagent) (required : dict Q) : bool :=
  match required with
  | [] => true
  | (reagent_name, required_amount) :: rest =>
      match available !! reagent_name with
      | None => false
      | Some reagent =>
          if Qlt_bool (r_inventory reagent) required_amount
             || is_expired now reagent
          then false
          else validate_reagents_loop now available rest
      end
  end.

Definition validate_reagents (now : datetime) (rc : Recipe)
    (available : gmap string Reagent) : bool :=
  validate_reagents_loop now available (rc_reagents rc).

(** *** [models.py]: Experiment *)

Record Validation : Type := {
  v_value : Q;
  v_is_valid : bool;
  v_deviation : Q;
  v_raw_data : dict Q;
  v_expected_range : Q * Q
}.

Record Experiment : Type := {
  e_recipe : Recipe;
  e_responsible_people : list string;
  e_date : datetime;
  e_results : dict Q;
  e_success : bool;
  e_cost : Q;
  e_measurement_validations : dict Validation
}.

(** [Experiment.__init__] *)
Definition Experiment_init (now : datetime) (recipe : Recipe)
    (responsible_people : list string) (date : option Z) : res Experiment :=
  match responsible_people with
  | [] => Err ValueError
  | _ :: _ =>
      Ok {| e_recipe := recipe;
            e_responsible_people := responsible_people;
            e_date := match date with
                      | Some d => midnight d
                      | None => now
                      end;
            e_results := [];
            e_success := false;
            e_cost := 0;
            e_measurement_validations := [] |}
  end.

Definition set_results (e : Experiment) (results : dict Q) : Experiment :=
  {| e_recipe := e_recipe e;
     e_responsible_people := e_responsible_people e;
     e_date := e_date e; e_results := results;
     e_success := e_success e; e_cost := e_cost e;
     e_measurement_validations := e_measurement_validations e |}.

Definition set_validations (e : Experiment) (vs : dict Validation)
    : Experiment :=
  {| e_recipe := e_recipe e;
     e_responsible_people := e_responsible_people e;
     e_date := e_date e; e_results := e_results e;
     e_success := e_success e; e_cost := e_cost e;
     e_measurement_validations := vs |}.

(** [Experiment.record_result] *)
Definition record_result (measurement : string) (value : Q)
    (raw_data : option (dict Q)) : M Experiment bool :=
  (self <- get ;;
   put (set_results self (dict_set measurement value (e_results self))) ;;;
   self <- get ;;
   match dict_get measurement (rc_expected_results (e_recipe self)) with
   | Some (min_val, max_val) =>
       let is_valid := in_range min_val value max_val in
       let target := ((min_val + max_val) / 2)%Q in
       q <- lift (py_div (value - target) target) ;;
       let deviation := (q * 100)%Q in
       put (set_validations self
              (dict_set measurement
                 {| v_value := value; v_is_valid := is_valid;
                    v_deviation := deviation;
                    v_raw_data := default [] raw_data;
                    v_expected_range := (min_val, max_val) |}
                 (e_measurement_validations self))) ;;;
       ret is_valid
   | None => ret true
   end)%py.

(** The loop over [self.results.items()] of [Experiment.validate_results]. *)
Fixpoint validate_results_loop (expected : dict (Q * Q)) (results : dict Q)
    : bool :=
  match results with
  | [] => true
  | (measurement, value) :: rest =>
      match dict_get measurement expected with
      | Some (min_val, max_val) =>
          if negb (in_range min_val value max_val) then false
          else validate_results_loop expected rest
      | None => validate_results_loop expected rest
      end
  end.

(** [Experiment.validate_results] *)
Definition validate_results (e : Experiment) : bool :=
  match e_results e, rc_expected_results (e_recipe e) with
  | [], _ => false
  | _, [] => false
  | _ :: _, _ :: _ =>
      validate_results_loop (rc_expected_results (e_recipe e)) (e_results e)
  end.

(** *** [calculators.py] *)

(** [ResultCalculator.evaluate_measurement] *)
Definition evaluate_measurement (value min_val max_val : Q)
    : res (bool * Q) :=
  (let is_valid := in_range min_val value max_val in
   let target := ((min_val + max_val) / 2)%Q in
   try! q <- py_div (value - target) target ;;
   Ok (is_valid, (q * 100)%Q))%py.

(** *** [managers.py]: InventoryManager *)

Record Supplier : Type := {
  s_name : string;
  s_contact_info : dict string;
  s_reagents : list string
}.

Record Order : Type := {
  o_order_id : string;
  o_reagent_name : string;
  o_quantity : Q;
  o_supplier_name : string;
  o_order_date : Z;
  o_status : string
}.

Record InventoryManager : Type := {
  im_reagents : gmap string Reagent;
  im_suppliers : gmap string Supplier;
  im_order_history : list Order;
  im_categories : gset string;
  im_locations : gset string
}.

Definition InventoryManager_init : InventoryManager :=
  {| im_reagents := ∅; im_suppliers := ∅; im_order_history := [];
     im_categories := ∅; im_locations := ∅ |}.

Definition set_reagents (im : InventoryManager)
    (reagents : gmap string Reagent) : InventoryManager :=
  {| im_reagents := reagents; im_suppliers := im_suppliers im;
     im_order_history := im_order_history im;
     im_categories := im_categories im;
     im_locations := im_locations im |}.

(** [InventoryManager.add_reagent] *)
Definition add_reagent (reagent : Reagent) (im : InventoryManager)
    : InventoryManager :=
  {| im_reagents := <[r_name reagent := reagent]> (im_reagents im);
     im_suppliers := im_suppliers im;
     im_order_history := im_order_history im;
     im_categories := {[r_category reagent]} ∪ im_categories im;
     im_locations := {[r_location reagent]} ∪ im_locations im |}.

(** [InventoryManager.register_supplier] *)
Definition register_supplier (supplier_name : string)
    (contact_info : dict string) (im : InventoryManager)
    : InventoryManager :=
  {| im_reagents := im_reagents im;
     im_suppliers :=
       <[supplier_name := {| s_name := supplier_name;
                             s_contact_info := contact_info;
                             s_reagents := [] |}]> (im_suppliers im);
     im_order_history := im_order_history im;
     im_categories := im_categories im;
     im_locations := im_locations im |}.

(** [InventoryManager.update_stock]: the returned boolean and the manager
    after the call. *)
Definition update_stock (now : datetime) (reagent_name : string)
    (amount : Q) (reason : string) (im : InventoryManager)
    : bool * InventoryManager :=
  match im_reagents im !! reagent_name with
  | None => (false, im)
  | Some reagent =>
      let reagent' := snd (update_inventory now amount reason reagent) in
      (true, set_reagents im (<[reagent_name := reagent']> (im_reagents im)))
  end.

(** [InventoryManager.place_order]: the returned order and the manager
    after the call. *)
Definition place_order (now : datetime) (reagent_name : string)
    (quantity : Q) (supplier_name : string) (im : InventoryManager)
    : Order * InventoryManager :=
  let order :=
    {| o_order_id :=
         "ORD-" +:+ pretty (length (im_order_history im) + 1)%nat;
       o_reagent_name := reagent_name;
       o_quantity := quantity;
       o_supplier_name := supplier_name;
       o_order_date := dt_day now;
       o_status := "pending" |} in
  (order,
   {| im_reagents := im_reagents im;
      im_suppliers := im_suppliers im;
      im_order_history := im_order_history im ++ [order];
      im_categories := im_categories im;
      im_locations := im_locations im |}).

(** *** [managers.py]: ResultManager *)

(** Python values that an attribute of an [Experiment] or an entry of a
    result summary can hold. *)
#[local] Unset Elimination Schemes.
Inductive pyval : Type :=
  | VNone
  | VBool (b : bool)
  | VNum (q : Q)
  | VStr (s : string)
  | VDate (d : Z)
  | VDatetime (d : datetime)
  | VList (l : list pyval)
  | VDict (d : list (string * pyval))
  | VRecipe (r : Recipe)
  | VBoundMethod (name : string).
#[local] Set Elimination Schemes.

Definition num_dict (d : dict Q) : pyval :=
  VDict (map (fun kv => (fst kv, VNum (snd kv))) d).

Definition validation_val (v : Validation) : pyval :=
  VDict [("value", VNum (v_value v));
         ("is_valid", VBool (v_is_valid v));
         ("deviation", VNum (v_deviation v));
         ("raw_data", num_dict (v_raw_data v));
         ("expected_range",
          VList [VNum (fst (v_expected_range v));
                 VNum (snd (v_expected_range v))])].

Definition validations_val (d : dict Validation) : pyval :=
  VDict (map (fun kv => (fst kv, validation_val (snd kv))) d).

(** [Recipe.to_dict] *)
Definition Recipe_to_dict (rc : Recipe) : pyval :=
  VDict [("name", VStr (rc_name rc));
         ("objective", VStr (rc_objective rc));
         ("reagents", num_dict (rc_reagents rc));
         ("procedure", VList (map VStr (rc_procedure rc)));
         ("expected_results",
          VDict (map (fun kv => (fst kv, VList [VNum (fst (snd kv));
                                                VNum (snd (snd kv))]))
                     (rc_expected_results rc)))].

(** [Experiment.to_dict] *)
Definition Experiment_to_dict (e : Experiment) : pyval :=
  VDict [("recipe", Recipe_to_dict (e_recipe e));
         ("responsible_people", VList (map VStr (e_responsible_people e)));
         ("date", VDate (dt_day (e_date e)));
         ("results", num_dict (e_results e));
         ("success", VBool (e_success e));
         ("cost", VNum (e_cost e));
         ("measurement_validations",
          validations_val (e_measurement_validations e))].

(** Attribute lookup [experiment.attr] on an instance of [Experiment]: the
    instance attributes set by [__init__] and the methods of the class. *)
Definition Experiment_getattr (e : Experiment) (attr : string) : res pyval :=
  if String.eqb attr "recipe" then Ok (VRecipe (e_recipe e))
  else if String.eqb attr "responsible_people"
  then Ok (VList (map VStr (e_responsible_people e)))
  else if String.eqb attr "date" then Ok (VDatetime (e_date e))
  else if String.eqb attr "results" then Ok (num_dict (e_results e))
  else if String.eqb attr "success" then Ok (VBool (e_success e))
  else if String.eqb attr "cost" then Ok (VNum (e_cost e))
  else if String.eqb attr "measurement_validations"
  then Ok (validations_val (e_measurement_validations e))
  else if String.eqb attr "record_result" then Ok (VBoundMethod attr)
  else if String.eqb attr "validate_results" then Ok (VBoundMethod attr)
  else if String.eqb attr "to_dict" then Ok (VBoundMethod attr)
  else if String.eqb attr "from_dict" then Ok (VBoundMethod attr)
  else Err AttributeError.

(** A call [f()] without arguments of a value obtained from [e]. *)
Definition py_call0 (e : Experiment) (f : pyval) : res pyval :=
  match f with
  | VBoundMethod name =>
      if String.eqb name "validate_results"
      then Ok (VBool (validate_results e))
      else if String.eqb name "to_dict" then Ok (Experiment_to_dict e)
      else Err TypeError
  | _ => Err TypeError
  end.

Record ResultManager : Type := {
  results_history : list (dict pyval)
}.

(** [ResultManager.add_result] *)
Definition add_result (experiment : Experiment) (notes : string)
    : M ResultManager (dict pyval) :=
  (get_detailed_results <-
     lift (Experiment_getattr experiment "get_detailed_results") ;;
   detailed_results <- lift (py_call0 experiment get_detailed_results) ;;
   validations <- lift (Experiment_getattr experiment "validations") ;;
   deviations <- lift (Experiment_getattr experiment "deviations") ;;
   is_successful <- lift (Experiment_getattr experiment "is_successful") ;;
   exito <- lift (py_call0 experiment is_successful) ;;
   let result :=
     [("fecha", VDatetime (e_date experiment));
      ("receta", VStr (rc_name (e_recipe experiment)));
      ("responsables", VList (map VStr (e_responsible_people experiment)));
      ("mediciones", num_dict (e_results experiment));
      ("validaciones", validations);
      ("desviaciones", deviations);
      ("exito", exito);
      ("notas", VStr notes);
      ("costo", VNum 0)] in
   self <- get ;;
   put {| results_history := results_history self ++ [result] |} ;;;
   ret result)%py.

(** *** [laboratory_system.py]: LaboratorySystem *)

Record LaboratorySystem : Type := {
  inventory_manager : InventoryManager;
  result_manager : ResultManager;
  recipes : gmap string Recipe
}.

(** [LaboratorySystem.add_recipe] *)
Definition add_recipe (recipe : Recipe) (lab : LaboratorySystem)
    : LaboratorySystem :=
  {| inventory_manager := inventory_manager lab;
     result_manager := result_manager lab;
     recipes := <[rc_name recipe := recipe]> (recipes lab) |}.

(** The availability loop of [perform_experiment]:
    [if not reagent or reagent.inventory < amount: return None]. *)
Fixpoint reagents_available (reagents : gmap string Reagent)
    (required : dict Q) : bool :=
  match required with
  | [] => true
  | (reagent_name, amount) :: rest =>
      match reagents !! reagent_name with
      | None => false
      | Some reagent =>
          if Qlt_bool (r_inventory reagent) amount then false
          else reagents_available reagents rest
      end
  end.

(** The loop [for measurement, value in measurements.items()]. *)
Definition record_all (measurements : dict Q) : M Experiment unit :=
  for_each measurements
    (fun mv => record_result (fst mv) (snd mv) None ;;; ret tt)%py.

(** The loop that calls [update_stock] for every required reagent. *)
Fixpoint debit_all (now : datetime) (reason : string) (required : dict Q)
    (im : InventoryManager) : InventoryManager :=
  match required with
  | [] => im
  | (reagent_name, amount) :: rest =>
      debit_all now reason rest
        (snd (update_stock now reagent_name (- amount) reason im))
  end.

(** [LaboratorySystem.perform_experiment].  The call to the plotting
    collaborator does not touch the state of the system and is left out. *)
Definition perform_experiment (now : datetime) (recipe_name : string)
    (responsible_people : list string) (measurements : dict Q)
    (notes : string) : M LaboratorySystem (option (dict pyval)) :=
  fun lab =>
    match recipes lab !! recipe_name with
    | None => Ret None lab
    | Some recipe =>
        if negb (reagents_available (im_reagents (inventory_manager lab))
                   (rc_reagents recipe))
        then Ret None lab
        else
          match Experiment_init now recipe responsible_people None with
          | Err e => Raise e lab
          | Ok experiment0 =>
              match record_all measurements experiment0 with
              | Raise e _ => Raise e lab
              | Ret _ experiment =>
                  let im :=
                    debit_all now ("Usado en experimento: " +:+ recipe_name)
                      (rc_reagents recipe) (inventory_manager lab) in
                  match add_result experiment notes (result_manager lab) with
                  | Ret result rm =>
                      Ret (Some result)
                        {| inventory_manager := im; result_manager := rm;
                           recipes := recipes lab |}
                  | Raise e rm =>
                      Raise e
                        {| inventory_manager := im; result_manager := rm;
                           recipes := recipes lab |}
                  end
              end
          end
    end.

(** *** Further operations of [models.py], [calculators.py] and
    [managers.py] *)

(** The loop of [Recipe.calculate_total_cost]. *)
Fixpoint calculate_total_cost_loop (available : gmap string Reagent)
    (required : dict Q) (total_cost : Q) : res Q :=
  match required with
  | [] => Ok total_cost
  | (reagent_name, amount) :: rest =>
      match available !! reagent_name with
      | None => Err ValueError
      | Some reagent =>
          calculate_total_cost_loop available rest
            (total_cost + r_cost reagent * amount)%Q
      end
  end.

(** [Recipe.calculate_total_cost] *)
Definition calculate_total_cost (rc : Recipe)
    (available : gmap string Reagent) : res Q :=
  calculate_total_cost_loop available (rc_reagents rc) 0.

(** [InventoryManager.remove_reagent]: the returned boolean and the manager
    after the call. *)
Definition remove_reagent (reagent_name : string) (im : InventoryManager)
    : bool * InventoryManager :=
  match im_reagents im !! reagent_name with
  | Some _ => (true, set_reagents im (delete reagent_name (im_reagents im)))
  | None => (false, im)
  end.

(** [InventoryManager.get_reagent] *)
Definition get_reagent (reagent_name : string) (im : InventoryManager)
    : option Reagent :=
  im_reagents im !! reagent_name.

(** [self.reagents.values()], in the order of the store; this is not the
    insertion order of the Python dictionary, and nothing below depends on
    the order. *)
Definition reagent_values (im : InventoryManager) : list Reagent :=
  map snd (map_to_list (im_reagents im)).

(** [InventoryManager.get_low_stock_reagents] *)
Definition get_low_stock_reagents (im : InventoryManager) : list Reagent :=
  List.filter is_low_stock (reagent_values im).

(** [InventoryManager.get_expired_reagents] *)
Definition get_expired_reagents (now : datetime) (im : InventoryManager)
    : list Reagent :=
  List.filter (is_expired now) (reagent_values im).

(** [InventoryManager.associate_supplier_with_reagent]: the returned boolean
    and the manager after the call. *)
Definition associate_supplier_with_reagent (supplier_name reagent_name : string)
    (im : InventoryManager) : bool * InventoryManager :=
  match im_suppliers im !! supplier_name, im_reagents im !! reagent_name with
  | Some supplier, Some _ =>
      if existsb (String.eqb reagent_name) (s_reagents supplier)
      then (true, im)
      else
        (true,
         {| im_reagents := im_reagents im;
            im_suppliers :=
              <[supplier_name :=
                  {| s_name := s_name supplier;
                     s_contact_info := s_contact_info supplier;
                     s_reagents := s_reagents supplier ++ [reagent_name] |}]>
                (im_suppliers im);
            im_order_history := im_order_history im;
            im_categories := im_categories im;
            im_locations := im_locations im |})
  | _, _ => (false, im)
  end.

Definition transaction_val (t : Transaction) : pyval :=
  VDict [("date", VDate (t_date t)); ("amount", VNum (t_amount t));
         ("reason", VStr (t_reason t)); ("new_level", VNum (t_new_level t))].

(** Attribute lookup [reagent.attr] on an instance of [Reagent]: the
    instance attributes set by [__init__] and the methods of the class. *)
Definition Reagent_getattr (r : Reagent) (attr : string) : res pyval :=
  if String.eqb attr "name" then Ok (VStr (r_name r))
  else if String.eqb attr "description" then Ok (VStr (r_description r))
  else if String.eqb attr "cost" then Ok (VNum (r_cost r))
  else if String.eqb attr "category" then Ok (VStr (r_category r))
  else if String.eqb attr "inventory" then Ok (VNum (r_inventory r))
  else if String.eqb attr "unit" then Ok (VStr (r_unit r))
  else if String.eqb attr "min_threshold" then Ok (VNum (r_min_threshold r))
  else if String.eqb attr "expiry_date"
  then Ok (match r_expiry_date r with
           | Some d => VDatetime d
           | None => VNone
           end)
  else if String.eqb attr "location" then Ok (VStr (r_location r))
  else if String.eqb attr "safety_info"
  then Ok (VDict (map (fun kv => (fst kv, VStr (snd kv))) (r_safety_info r)))
  else if String.eqb attr "purchase_history"
  then Ok (VList (map transaction_val (r_purchase_history r)))
  else if String.eqb attr "usage_history"
  then Ok (VList (map transaction_val (r_usage_history r)))
  else if String.eqb attr "update_inventory" then Ok (VBoundMethod attr)
  else if String.eqb attr "is_expired" then Ok (VBoundMethod attr)
  else if String.eqb attr "is_low_stock" then Ok (VBoundMethod attr)
  else if String.eqb attr "to_dict" then Ok (VBoundMethod attr)
  else if String.eqb attr "from_dict" then Ok (VBoundMethod attr)
  else Err AttributeError.

(** [Reagent.to_dict], as a Python value. *)
Definition Reagent_to_dict_val (r : Reagent) : pyval :=
  VDict [("name", VStr (r_name r));
         ("description", VStr (r_description r));
         ("cost", VNum (r_cost r));
         ("category", VStr (r_category r));
         ("inventory", VNum (r_inventory r));
         ("unit", VStr (r_unit r));
         ("min_threshold", VNum (r_min_threshold r));
         ("expiry_date",
          match r_expiry_date r with
          | Some d => VDate (dt_day d)
          | None => VNone
          end);
         ("location", VStr (r_location r));
         ("safety_info",
          VDict (map (fun kv => (fst kv, VStr (snd kv))) (r_safety_info r)));
         ("purchase_history",
          VList (map transaction_val (r_purchase_history r)));
         ("usage_history",
          VList (map transaction_val (r_usage_history r)))].

(** A call [f()] without arguments of a value obtained from [r]. *)
Definition Reagent_call0 (now : datetime) (r : Reagent) (f : pyval)
    : res pyval :=
  match f with
  | VBoundMethod name =>
      if String.eqb name "is_expired" then Ok (VBool (is_expired now r))
      else if String.eqb name "is_low_stock" then Ok (VBool (is_low_stock r))
      else if String.eqb name "to_dict" then Ok (Reagent_to_dict_val r)
      else Err TypeError
  | _ => Err TypeError
  end.

Definition low_stock_alert (reagent : Reagent) : dict pyval :=
  [("type", VStr "low_stock");
   ("reagent_name", VStr (r_name reagent));
   ("current_level", VNum (r_inventory reagent));
   ("min_threshold", VNum (r_min_threshold reagent));
   ("unit", VStr (r_unit reagent))].

(** The second loop of [InventoryManager.check_alerts]:
    [days = reagent.days_until_expiry()], then
    [if days is not None and days <= 30]. *)
Fixpoint expiry_alerts (now : datetime) (reagents : list Reagent)
    (alerts : list (dict pyval)) : res (list (dict pyval)) :=
  match reagents with
  | [] => Ok alerts
  | reagent :: rest =>
      (try! days_until_expiry <- Reagent_getattr reagent "days_until_expiry" ;;
       try! days <- Reagent_call0 now reagent days_until_expiry ;;
       match days with
       | VNone => expiry_alerts now rest alerts
       | VNum q =>
           if Qle_bool q 30
           then expiry_alerts now rest
                  (alerts ++
                   [[("type", VStr "expiry");
                     ("reagent_name", VStr (r_name reagent));
                     ("days_remaining", days);
                     ("expiry_date",
                      match r_expiry_date reagent with
                      | Some d => VDatetime d
                      | None => VNone
                      end)]])
           else expiry_alerts now rest alerts
       | _ => Err TypeError
       end)%py
  end.

(** [InventoryManager.check_alerts] *)
Definition check_alerts (now : datetime) (im : InventoryManager)
    : res (list (dict pyval)) :=
  expiry_alerts now (reagent_values im)
    (map low_stock_alert (get_low_stock_reagents im)).

(** [d[k]] *)
Definition py_getitem (d : dict pyval) (k : string) : res pyval :=
  match dict_get k d with
  | Some v => Ok v
  | None => Err KeyError
  end.

(** The truth value of a Python value. *)
Definition py_truthy (v : pyval) : bool :=
  match v with
  | VNone => false
  | VBool b => b
  | VNum q => negb (Qeq_bool q 0)
  | VStr s => negb (String.eqb s "")
  | VList l => match l with [] => false | _ :: _ => true end
  | VDict d => match d with [] => false | _ :: _ => true end
  | VDate _ | VDatetime _ | VRecipe _ | VBoundMethod _ => true
  end.

(** [v == s] for a string [s]. *)
Definition py_eq_str (v : pyval) (s : string) : bool :=
  match v with
  | VStr s' => String.eqb s' s
  | _ => false
  end.

(** [ResultManager.get_results_by_recipe] *)
Fixpoint get_results_by_recipe_loop (recipe_name : string)
    (history : list (dict pyval)) : res (list (dict pyval)) :=
  match history with
  | [] => Ok []
  | r :: rest =>
      (try! receta <- py_getitem r "receta" ;;
       try! found <- get_results_by_recipe_loop recipe_name rest ;;
       Ok (if py_eq_str receta recipe_name then r :: found else found))%py
  end.

Definition get_results_by_recipe (recipe_name : string) (rm : ResultManager)
    : res (list (dict pyval)) :=
  get_results_by_recipe_loop recipe_name (results_history rm).

(** [sum(1 for r in results if r["exito"])] *)
Fixpoint count_successful (results : list (dict pyval)) : res nat :=
  match results with
  | [] => Ok 0%nat
  | r :: rest =>
      (try! exito <- py_getitem r "exito" ;;
       try! n <- count_successful rest ;;
       Ok (if py_truthy exito then S n else n))%py
  end.

(** [ResultManager.calculate_success_rate] *)
Definition calculate_success_rate (recipe_name : option string)
    (rm : ResultManager) : res Q :=
  (try! results <-
     match recipe_name with
     | Some n =>
         if String.eqb n "" then Ok (results_history rm)
         else get_results_by_recipe n rm
     | None => Ok (results_history rm)
     end ;;
   match results with
   | [] => Ok 0%Q
   | _ :: _ =>
       try! successful <- count_successful results ;;
       Ok (inject_Z (Z.of_nat successful)
           / inject_Z (Z.of_nat (length results)) * 100)%Q
   end)%py.

End Split.

(** ** The single-script variant *)

Module Mono.

(** *** Reagent *)

Record Transaction : Type := {
  t_date : Z;
  t_amount : Q;
  t_old_level : Q;
  t_new_level : Q;
  t_reason : string
}.

(** The digits of [strftime "%Y%m%d%H%M%S"]: a day and a second of it. *)
Record stamp : Type := { st_day : Z; st_second : Z }.

Definition timestamp (now : datetime) : stamp :=
  {| st_day := dt_day now; st_second := dt_micro now / 1000000 |}.

(** An order; [o_order_id] stands for the string ["ORD-"] followed by the
    digits of the stamp. *)
Record Order : Type := {
  o_order_id : stamp;
  o_reagent_name : string;
  o_quantity : Q;
  o_supplier_name : string;
  o_order_date : Z;
  o_status : string;
  o_expected_delivery : Z
}.

Record Reagent : Type := {
  r_name : string;
  r_description : string;
  r_cost : Q;
  r_category : string;
  r_inventory : Q;
  r_unit : string;
  r_min_threshold : Q;
  r_expiry_date : option Z;
  r_location : string;
  r_safety_info : dict string;
  r_purchase_history : list Transaction;
  r_usage_history : list Transaction;
  r_orders : list Order
}.

(** [Reagent.__init__] *)
Definition Reagent_init (name description : string) (cost : Q)
    (category : string) (inventory : Q) (unit_ : string)
    (min_threshold : Q) (expiry_date : option Z)
    (location : option string) (safety_info : option (dict string))
    : res Reagent :=
  (try! name <- Validator.validate_string name ;;
   try! description <- Validator.validate_string description ;;
   try! cost <- Validator.validate_positive_number cost ;;
   try! category <- Validator.validate_string category ;;
   try! inventory <- Validator.validate_positive_number inventory ;;
   try! unit_ <- Validator.validate_string unit_ ;;
   try! min_threshold <- Validator.validate_positive_number min_threshold ;;
   try! expiry_date <- Validator.validate_date_format expiry_date ;;
   try! location <-
     Validator.validate_string (default "Almacén general" location) ;;
   Ok {| r_name := name; r_description := description; r_cost := cost;
         r_category := category; r_inventory := inventory;
         r_unit := unit_; r_min_threshold := min_threshold;
         r_expiry_date := expiry_date; r_location := location;
         r_safety_info := default [] safety_info;
         r_purchase_history := []; r_usage_history := [];
         r_orders := [] |})%py.

Definition is_low_stock (r : Reagent) : bool :=
  Qle_bool (r_inventory r) (r_min_threshold r).

(** [Reagent.is_expired]: [today >= expiry] on dates. *)
Definition is_expired (now : datetime) (r : Reagent) : bool :=
  match r_expiry_date r with
  | None => false
  | Some expiry => expiry <=? dt_day now
  end.

(** [Reagent.update_inventory] *)
Definition update_inventory (now : datetime) (amount : Q) (reason : string)
    (r : Reagent) : Reagent :=
  let old_inventory := r_inventory r in
  let new_inventory := (r_inventory r + amount)%Q in
  let transaction :=
    {| t_date := dt_day now; t_amount := amount;
       t_old_level := old_inventory; t_new_level := new_inventory;
       t_reason := reason |} in
  {| r_name := r_name r; r_description := r_description r;
     r_cost := r_cost r; r_category := r_category r;
     r_inventory := new_inventory; r_unit := r_unit r;
     r_min_threshold := r_min_threshold r;
     r_expiry_date := r_expiry_date r; r_location := r_location r;
     r_safety_info := r_safety_info r;
     r_purchase_history :=
       if Qlt_bool 0 amount then r_purchase_history r ++ [transaction]
       else r_purchase_history r;
     r_usage_history :=
       if Qlt_bool 0 amount then r_usage_history r
       else r_usage_history r ++ [transaction];
     r_orders := r_orders r |}.

Definition add_order (r : Reagent) (o : Order) : Reagent :=
  {| r_name := r_name r; r_description := r_description r;
     r_cost := r_cost r; r_category := r_category r;
     r_inventory := r_inventory r; r_unit := r_unit r;
     r_min_threshold := r_min_threshold r;
     r_expiry_date := r_expiry_date r; r_location := r_location r;
     r_safety_info := r_safety_info r;
     r_purchase_history := r_purchase_history r;
     r_usage_history := r_usage_history r;
     r_orders := r_orders r ++ [o] |}.

(** The dictionary built by [Reagent.to_dict] and read by
    [Reagent.from_dict]; the keys read with [data.get] may be absent. *)
Record ReagentData : Type := {
  rd_name : string;
  rd_description : string;
  rd_cost : Q;
  rd_category : string;
  rd_inventory : Q;
  rd_unit : string;
  rd_min_threshold : Q;
  rd_expiry_date : option Z;
  rd_location : option string;
  rd_safety_info : option (dict string);
  rd_purchase_history : option (list Transaction);
  rd_usage_history : option (list Transaction);
  rd_orders : option (list Order)
}.

Definition Reagent_to_dict (r : Reagent) : ReagentData :=
  {| rd_name := r_name r; rd_description := r_description r;
     rd_cost := r_cost r; rd_category := r_category r;
     rd_inventory := r_inventory r; rd_unit := r_unit r;
     rd_min_threshold := r_min_threshold r;
     rd_expiry_date := r_expiry_date r;
     rd_location := Some (r_location r);
     rd_safety_info := Some (r_safety_info r);
     rd_purchase_history := Some (r_purchase_history r);
     rd_usage_history := Some (r_usage_history r);
     rd_orders := Some (r_orders r) |}.

Definition Reagent_from_dict (data : ReagentData) : res Reagent :=
  (try! reagent <-
     Reagent_init (rd_name data) (rd_description data) (rd_cost data)
       (rd_category data) (rd_inventory data) (rd_unit data)
       (rd_min_threshold data) (rd_expiry_date data) (rd_location data)
       (Some (default [] (rd_safety_info data))) ;;
   Ok {| r_name := r_name reagent; r_description := r_description reagent;
         r_cost := r_cost reagent; r_category := r_category reagent;
         r_inventory := r_inventory reagent; r_unit := r_unit reagent;
         r_min_threshold := r_min_threshold reagent;
         r_expiry_date := r_expiry_date reagent;
         r_location := r_location reagent;
         r_safety_info := r_safety_info reagent;
         r_purchase_history := default [] (rd_purchase_history data);
         r_usage_history := default [] (rd_usage_history data);
         r_orders := default [] (rd_orders data) |})%py.

(** *** Recipe *)

(** The value of an entry of [expected_results]: a tuple in memory, a list
    in a snapshot. *)
Inductive pyseq : Type :=
  | PTuple (l : list Q)
  | PList (l : list Q).

Record Recipe : Type := {
  rc_name : string;
  rc_objective : string;
  rc_reagents : dict Q;
  rc_expected_results : dict pyseq;
  rc_procedure : list string
}.

(** [Recipe.__init__] *)
Definition Recipe_init (name objective : string) (reagents : dict Q)
    (expected_results : dict pyseq) (procedure : option (list string))
    : res Recipe :=
  (try! name <- Validator.validate_string name ;;
   try! objective <- Validator.validate_string objective ;;
   match reagents with
   | [] => Err ValueError
   | _ :: _ =>
       match expected_results with
       | [] => Err ValueError
       | _ :: _ =>
           Ok {| rc_name := name; rc_objective := objective;
                 rc_reagents := reagents;
                 rc_expected_results := expected_results;
                 rc_procedure := default [] procedure |}
       end
   end)%py.

(** [Recipe.validate_reagents] *)
Fixpoint validate_reagents_loop (now : datetime)
    (available : gmap string Reagent) (required : dict Q) : bool :=
  match required with
  | [] => true
  | (reagent_name, amount) :: rest =>
      match available !! reagent_name with
      | None => false
      | Some reagent =>
          if Qlt_bool (r_inventory reagent) amount || is_expired now reagent
          then false
          else validate_reagents_loop now available rest
      end
  end.

Definition validate_reagents (now : datetime) (rc : Recipe)
    (available : gmap string Reagent) : bool :=
  validate_reagents_loop now available (rc_reagents rc).

Record RecipeData : Type := {
  rcd_name : string;
  rcd_objective : string;
  rcd_reagents : dict Q;
  rcd_expected_results : dict pyseq;
  rcd_procedure : option (list string)
}.

(** [list(v) if isinstance(v, tuple) else v] *)
Definition to_list (v : pyseq) : pyseq :=
  match v with
  | PTuple l => PList l
  | PList l => PList l
  end.

(** [tuple(v) if isinstance(v, list) else v] *)
Definition to_tuple (v : pyseq) : pyseq :=
  match v with
  | PList l => PTuple l
  | PTuple l => PTuple l
  end.

Definition map_values {A B} (f : A -> B) (d : dict A) : dict B :=
  map (fun kv => (fst kv, f (snd kv))) d.

(** [Recipe.to_dict] *)
Definition Recipe_to_dict (rc : Recipe) : RecipeData :=
  {| rcd_name := rc_name rc; rcd_objective := rc_objective rc;
     rcd_reagents := rc_reagents rc;
     rcd_expected_results := map_values to_list (rc_expected_results rc);
     rcd_procedure := Some (rc_procedure rc) |}.

(** [Recipe.from_dict] *)
Definition Recipe_from_dict (data : RecipeData) : res Recipe :=
  Recipe_init (rcd_name data) (rcd_objective data) (rcd_reagents data)
    (map_values to_tuple (rcd_expected_results data))
    (Some (default [] (rcd_procedure data))).

(** *** Experiment *)

Record Validation : Type := {
  v_is_valid : bool;
  v_expected_range : option pyseq
}.

Record Experiment : Type := {
  e_recipe : Recipe;
  e_date : datetime;
  e_responsible_people : list string;
  e_results : dict Q;
  e_measurement_validations : dict Validation;
  e_success : bool;
  e_cost : Q;
  e_notes : string
}.

(** [Experiment.__init__] *)
Definition Experiment_init (now : datetime) (recipe : Recipe)
    (responsible_people : list string) : Experiment :=
  {| e_recipe := recipe; e_date := now;
     e_responsible_people := responsible_people;
     e_results := []; e_measurement_validations := [];
     e_success := false; e_cost := 0; e_notes := "" |}.

Definition set_notes (e : Experiment) (notes : string) : Experiment :=
  {| e_recipe := e_recipe e; e_date := e_date e;
     e_responsible_people := e_responsible_people e;
     e_results := e_results e;
     e_measurement_validations := e_measurement_validations e;
     e_success := e_success e; e_cost := e_cost e; e_notes := notes |}.

Definition set_success (e : Experiment) (success : bool) : Experiment :=
  {| e_recipe := e_recipe e; e_date := e_date e;
     e_responsible_people := e_responsible_people e;
     e_results := e_results e;
     e_measurement_validations := e_measurement_validations e;
     e_success := success; e_cost := e_cost e; e_notes := e_notes e |}.

Definition set_cost (e : Experiment) (cost : Q) : Experiment :=
  {| e_recipe := e_recipe e; e_date := e_date e;
     e_responsible_people := e_responsible_people e;
     e_results := e_results e;
     e_measurement_validations := e_measurement_validations e;
     e_success := e_success e; e_cost := cost; e_notes := e_notes e |}.

(** [Experiment.record_result]: the returned boolean and the experiment
    after the call. *)
Definition record_result (measurement : string) (value : Q)
    (e : Experiment) : bool * Experiment :=
  let results := dict_set measurement value (e_results e) in
  let expected := dict_get measurement (rc_expected_results (e_recipe e)) in
  let validation :=
    match expected with
    | Some (PTuple [min_val; max_val]) =>
        {| v_is_valid := in_range min_val value max_val;
           v_expected_range := expected |}
    | _ => {| v_is_valid := true; v_expected_range := None |}
    end in
  (v_is_valid validation,
   {| e_recipe := e_recipe e; e_date := e_date e;
      e_responsible_people := e_responsible_people e;
      e_results := results;
      e_measurement_validations :=
        dict_set measurement validation (e_measurement_validations e);
      e_success := e_success e; e_cost := e_cost e;
      e_notes := e_notes e |}).

(** The loop over the keys of [expected_results] of
    [Experiment.validate_results]. *)
Fixpoint validate_results_loop (measurements : list string)
    (results : dict Q) (validations : dict Validation) : bool :=
  match measurements with
  | [] => true
  | measurement :: rest =>
      if negb (dict_mem measurement results) then false
      else
        let is_valid :=
          match dict_get measurement validations with
          | Some validation => v_is_valid validation
          | None => false
          end in
        if negb is_valid then false
        else validate_results_loop rest results validations
  end.

(** [Experiment.validate_results] *)
Definition validate_results (e : Experiment) : bool :=
  validate_results_loop (dict_keys (rc_expected_results (e_recipe e)))
    (e_results e) (e_measurement_validations e).

(** *** LaboratorySystem *)

Record Supplier : Type := {
  s_name : string;
  s_contact_info : string;
  s_reagents : list string
}.

Record LaboratorySystem : Type := {
  reagents : gmap string Reagent;
  recipes : gmap string Recipe;
  experiments : list Experiment;
  suppliers : gmap string Supplier
}.

Definition LaboratorySystem_init : LaboratorySystem :=
  {| reagents := ∅; recipes := ∅; experiments := []; suppliers := ∅ |}.

Definition set_reagents (lab : LaboratorySystem)
    (rs : gmap string Reagent) : LaboratorySystem :=
  {| reagents := rs; recipes := recipes lab;
     experiments := experiments lab; suppliers := suppliers lab |}.

(** [LaboratorySystem.add_reagent] *)
Definition add_reagent (reagent : Reagent) (lab : LaboratorySystem)
    : LaboratorySystem :=
  set_reagents lab (<[r_name reagent := reagent]> (reagents lab)).

(** [LaboratorySystem.add_recipe] *)
Definition add_recipe (recipe : Recipe) (lab : LaboratorySystem)
    : LaboratorySystem :=
  {| reagents := reagents lab;
     recipes := <[rc_name recipe := recipe]> (recipes lab);
     experiments := experiments lab; suppliers := suppliers lab |}.

(** [LaboratorySystem.add_supplier] *)
Definition add_supplier (name contact_info : string)
    (lab : LaboratorySystem) : LaboratorySystem :=
  {| reagents := reagents lab; recipes := recipes lab;
     experiments := experiments lab;
     suppliers :=
       <[name := {| s_name := name; s_contact_info := contact_info;
                    s_reagents := [] |}]> (suppliers lab) |}.

(** The error messages returned by the operations of the system, by
    kind; each carries the name that the message quotes. *)
Inductive error : Type :=
  | RecipeNotFound (recipe_name : string)
  | ReagentNotAvailable (reagent_name : string)
  | InsufficientInventory (reagent_name : string)
  | ReagentExpired (reagent_name : string)
  | ReagentNotFound (reagent_name : string)
  | SupplierNotFound (supplier_name : string).

Definition message (err : error) : string :=
  match err with
  | RecipeNotFound n => "Error: Receta '" +:+ n +:+ "' no encontrada"
  | ReagentNotAvailable n => "Error: Reactivo '" +:+ n +:+ "' no disponible"
  | InsufficientInventory n =>
      "Error: Inventario insuficiente de '" +:+ n +:+ "'"
  | ReagentExpired n => "Error: Reactivo '" +:+ n +:+ "' vencido"
  | ReagentNotFound n => "Error: Reactivo '" +:+ n +:+ "' no encontrado"
  | SupplierNotFound n => "Error: Proveedor '" +:+ n +:+ "' no encontrado"
  end.

(** The availability loop of [perform_experiment]: the error of the first
    check that fails, if any. *)
Fixpoint check_reagents (now : datetime) (rs : gmap string Reagent)
    (required : dict Q) : option error :=
  match required with
  | [] => None
  | (reagent_name, amount) :: rest =>
      match rs !! reagent_name with
      | None => Some (ReagentNotAvailable reagent_name)
      | Some reagent =>
          if Qlt_bool (r_inventory reagent) amount
          then Some (InsufficientInventory reagent_name)
          else if is_expired now reagent
          then Some (ReagentExpired reagent_name)
          else check_reagents now rs rest
      end
  end.

(** The loop [for measurement, value in measurements.items()]. *)
Fixpoint record_all (measurements : dict Q) (e : Experiment) : Experiment :=
  match measurements with
  | [] => e
  | (measurement, value) :: rest =>
      record_all rest (snd (record_result measurement value e))
  end.

(** [self.reagents[reagent_name]] *)
Definition reagent_at (rs : gmap string Reagent) (reagent_name : string)
    : res Reagent :=
  match rs !! reagent_name with
  | Some reagent => Ok reagent
  | None => Err KeyError
  end.

(** The loop that debits every required reagent. *)
Fixpoint debit_all (now : datetime) (reason : string) (required : dict Q)
    : M (gmap string Reagent) unit :=
  match required with
  | [] => ret tt
  | (reagent_name, amount) :: rest =>
      (rs <- get ;;
       reagent <- lift (reagent_at rs reagent_name) ;;
       put (<[reagent_name :=
                update_inventory now (- amount) reason reagent]> rs) ;;;
       debit_all now reason rest)%py
  end.

(** [sum(self.reagents[name].cost * amount for name, amount in ...)] *)
Fixpoint total_cost (rs : gmap string Reagent) (required : dict Q) (acc : Q)
    : res Q :=
  match required with
  | [] => Ok acc
  | (reagent_name, amount) :: rest =>
      (try! reagent <- reagent_at rs reagent_name ;;
       total_cost rs rest (acc + r_cost reagent * amount)%Q)%py
  end.

(** [LaboratorySystem.perform_experiment]: an error, whose message the
    code returns, or the experiment that was run, which the code returns
    together with a message. *)
Definition perform_experiment (now : datetime) (recipe_name : string)
    (responsible_people : list string) (measurements : dict Q)
    (notes : string) : M LaboratorySystem (error + Experiment) :=
  fun lab =>
    match recipes lab !! recipe_name with
    | None => Ret (inl (RecipeNotFound recipe_name)) lab
    | Some recipe =>
        match check_reagents now (reagents lab) (rc_reagents recipe) with
        | Some err => Ret (inl err) lab
        | None =>
            let experiment :=
              set_notes (Experiment_init now recipe responsible_people)
                notes in
            let experiment := record_all measurements experiment in
            let experiment :=
              set_success experiment (validate_results experiment) in
            match debit_all now ("Usado en experimento: " +:+ recipe_name)
                    (rc_reagents recipe) (reagents lab) with
            | Raise e rs => Raise e (set_reagents lab rs)
            | Ret _ rs =>
                match total_cost rs (rc_reagents recipe) 0 with
                | Err e => Raise e (set_reagents lab rs)
                | Ok cost =>
                    let experiment := set_cost experiment cost in
                    Ret (inr experiment)
                      {| reagents := rs; recipes := recipes lab;
                         experiments := experiments lab ++ [experiment];
                         suppliers := suppliers lab |}
                end
            end
        end
    end.

(** [LaboratorySystem.place_order]: an error, or the order that was
    recorded. *)
Definition place_order (now : datetime) (reagent_name : string)
    (quantity : Q) (supplier_name : string) (lab : LaboratorySystem)
    : (error + Order) * LaboratorySystem :=
  match reagents lab !! reagent_name with
  | None => (inl (ReagentNotFound reagent_name), lab)
  | Some reagent =>
      match suppliers lab !! supplier_name with
      | None => (inl (SupplierNotFound supplier_name), lab)
      | Some _ =>
          let order :=
            {| o_order_id := timestamp now;
               o_reagent_name := reagent_name;
               o_quantity := quantity;
               o_supplier_name := supplier_name;
               o_order_date := dt_day now;
               o_status := "pendiente";
               o_expected_delivery := dt_day (add_days now 7) |} in
          (inr order,
           set_reagents lab
             (<[reagent_name := add_order reagent order]> (reagents lab)))
      end
  end.

(** *** Further operations of the script *)

(** [Reagent.days_until_expiry] *)
Definition days_until_expiry (now : datetime) (r : Reagent) : option Z :=
  match r_expiry_date r with
  | None => None
  | Some expiry =>
      if expiry <=? dt_day now then Some 0 else Some (expiry - dt_day now)
  end.

(** The loop of [Recipe.calculate_total_cost]. *)
Fixpoint calculate_total_cost_loop (available : gmap string Reagent)
    (required : dict Q) (total_cost : Q) : res Q :=
  match required with
  | [] => Ok total_cost
  | (reagent_name, amount) :: rest =>
      match available !! reagent_name with
      | None => Err ValueError
      | Some reagent =>
          calculate_total_cost_loop available rest
            (total_cost + amount * r_cost reagent)%Q
      end
  end.

(** [Recipe.calculate_total_cost] *)
Definition calculate_total_cost (rc : Recipe)
    (available : gmap string Reagent) : res Q :=
  calculate_total_cost_loop available (rc_reagents rc) 0.

(** The dictionary built by [Experiment.to_dict] and read by
    [Experiment.from_dict]. *)
Record ExperimentData : Type := {
  ed_recipe : RecipeData;
  ed_date : Z;
  ed_responsible_people : list string;
  ed_results : dict Q;
  ed_measurement_validations : dict Validation;
  ed_success : bool;
  ed_cost : Q;
  ed_notes : option string
}.

(** [Experiment.to_dict] *)
Definition Experiment_to_dict (e : Experiment) : ExperimentData :=
  {| ed_recipe := Recipe_to_dict (e_recipe e);
     ed_date := dt_day (e_date e);
     ed_responsible_people := e_responsible_people e;
     ed_results := e_results e;
     ed_measurement_validations := e_measurement_validations e;
     ed_success := e_success e;
     ed_cost := e_cost e;
     ed_notes := Some (e_notes e) |}.

(** [Experiment.from_dict] *)
Definition Experiment_from_dict (data : ExperimentData) : res Experiment :=
  (try! recipe <- Recipe_from_dict (ed_recipe data) ;;
   Ok {| e_recipe := recipe;
         e_date := midnight (ed_date data);
         e_responsible_people := ed_responsible_people data;
         e_results := ed_results data;
         e_measurement_validations := ed_measurement_validations data;
         e_success := ed_success data;
         e_cost := ed_cost data;
         e_notes := default "" (ed_notes data) |})%py.

(** [LaboratorySystem.associate_supplier_with_reagent]: an error, or whether
    the reagent was newly associated (the code returns a message in each
    case); and the system after the call. *)
Definition associate_supplier_with_reagent (supplier_name reagent_name : string)
    (lab : LaboratorySystem) : (error + bool) * LaboratorySystem :=
  match suppliers lab !! supplier_name with
  | None => (inl (SupplierNotFound supplier_name), lab)
  | Some supplier =>
      match reagents lab !! reagent_name with
      | None => (inl (ReagentNotFound reagent_name), lab)
      | Some _ =>
          if existsb (String.eqb reagent_name) (s_reagents supplier)
          then (inr false, lab)
          else
            (inr true,
             {| reagents := reagents lab; recipes := recipes lab;
                experiments := experiments lab;
                suppliers :=
                  <[supplier_name :=
                      {| s_name := s_name supplier;
                         s_contact_info := s_contact_info supplier;
                         s_reagents := s_reagents supplier ++ [reagent_name] |}]>
                    (suppliers lab) |})
      end
  end.


(** [sum(1 for e in experiments if e.success)] *)
Definition count_successful (es : list Experiment) : nat :=
  length (List.filter e_success es).

(** [sum(e.cost for e in experiments)] *)
Definition sum_costs (es : list Experiment) : Q :=
  fold_left (fun acc e => (acc + e_cost e)%Q) es 0%Q.


End Mono.

(** ** Concrete scenarios

    The data used by the closed statements below. *)

Module Scenario.

(** 2024-01-01 as a day ordinal, and the day before. *)
Definition day_2024_01_01 : Z := 738886.
Definition day_2023_12_31 : Z := 738885.

(** Some instant of 2024-06-01. *)
Definition an_instant : datetime :=
  {| dt_day := 739038; dt_micro := 36000000000 |}.

(** *** Reagents *)

(** Reagent "Acid" of the module variant: [inventory] units in stock,
    optional expiry date. *)
Definition split_acid (inventory : Q) (expiry : option Z) : Split.Reagent :=
  {| Split.r_name := "Acid"; Split.r_description := "Acetic acid";
     Split.r_cost := 2; Split.r_category := "Acids";
     Split.r_inventory := inventory; Split.r_unit := "mL";
     Split.r_min_threshold := 20;
     Split.r_expiry_date := option_map midnight expiry;
     Split.r_location := "Shelf A"; Split.r_safety_info := [];
     Split.r_purchase_history := []; Split.r_usage_history := [] |}.

Definition split_base (inventory : Q) : Split.Reagent :=
  {| Split.r_name := "Base"; Split.r_description := "Sodium hydroxide";
     Split.r_cost := 3; Split.r_category := "Bases";
     Split.r_inventory := inventory; Split.r_unit := "g";
     Split.r_min_threshold := 5;
     Split.r_expiry_date := None;
     Split.r_location := "Shelf B"; Split.r_safety_info := [];
     Split.r_purchase_history := []; Split.r_usage_history := [] |}.

(** Reagent "Acid" of the single-script variant. *)
Definition mono_acid (inventory : Q) (expiry : option Z) : Mono.Reagent :=
  {| Mono.r_name := "Acid"; Mono.r_description := "Acetic acid";
     Mono.r_cost := 2; Mono.r_category := "Acids";
     Mono.r_inventory := inventory; Mono.r_unit := "mL";
     Mono.r_min_threshold := 20; Mono.r_expiry_date := expiry;
     Mono.r_location := "Shelf A"; Mono.r_safety_info := [];
     Mono.r_purchase_history := []; Mono.r_usage_history := [];
     Mono.r_orders := [] |}.

(** *** Recipes and experiments of the module variant *)

(** A titration that expects a pH and a temperature. *)
Definition titration : Split.Recipe :=
  {| Split.rc_name := "Titration"; Split.rc_objective := "Neutralise";
     Split.rc_reagents := [("Acid", 10%Q)];
     Split.rc_procedure := ["Mix"];
     Split.rc_expected_results :=
       [("pH", (6.8, 7.2)%Q); ("T", (20, 25)%Q)] |}.

(** A recipe whose expected range is centred on zero. *)
Definition zeroing : Split.Recipe :=
  {| Split.rc_name := "Zeroing"; Split.rc_objective := "Calibrate";
     Split.rc_reagents := [("Acid", 10%Q)];
     Split.rc_procedure := ["Measure"];
     Split.rc_expected_results := [("offset", (-1, 1)%Q)] |}.

(** A recipe that needs a base and an acid. *)
Definition buffer : Split.Recipe :=
  {| Split.rc_name := "Buffer"; Split.rc_objective := "Prepare a buffer";
     Split.rc_reagents := [("Base", 5%Q); ("Acid", 10%Q)];
     Split.rc_procedure := ["Dissolve"];
     Split.rc_expected_results := [("pH", (7.3, 7.5)%Q)] |}.

(** A fresh experiment on [recipe], run by one person. *)
Definition fresh (recipe : Split.Recipe) : Split.Experiment :=
  {| Split.e_recipe := recipe; Split.e_responsible_people := ["Ana"];
     Split.e_date := an_instant; Split.e_results := [];
     Split.e_success := false; Split.e_cost := 0;
     Split.e_measurement_validations := [] |}.

(** *** Systems of the module variant *)

Definition split_lab (rs : list Split.Reagent) (rcs : list Split.Recipe)
    : Split.LaboratorySystem :=
  {| Split.inventory_manager :=
       fold_right Split.add_reagent Split.InventoryManager_init rs;
     Split.result_manager := {| Split.results_history := [] |};
     Split.recipes :=
       Split.recipes
         (fold_right Split.add_recipe
            {| Split.inventory_manager := Split.InventoryManager_init;
               Split.result_manager := {| Split.results_history := [] |};
               Split.recipes := ∅ |} rcs) |}.

(** One reagent, past its expiry date on [an_instant]. *)
Definition lab_expired_acid : Split.LaboratorySystem :=
  split_lab [split_acid 100 (Some day_2024_01_01)] [titration].

(** Two reagents, the second one expired. *)
Definition lab_buffer : Split.LaboratorySystem :=
  split_lab [split_base 50; split_acid 100 (Some day_2024_01_01)] [buffer].

(** One reagent without expiry date. *)
Definition lab_fresh_acid : Split.LaboratorySystem :=
  split_lab [split_acid 100 None] [titration].

(** *** Systems of the single-script variant *)

(** A recipe of the single-script variant. *)
Definition mono_titration : Mono.Recipe :=
  {| Mono.rc_name := "Titration"; Mono.rc_objective := "Neutralise";
     Mono.rc_reagents := [("Acid", 10%Q)];
     Mono.rc_expected_results := [("pH", Mono.PTuple [6.8; 7.2]%Q)];
     Mono.rc_procedure := ["Mix"] |}.

(** One reagent with the given stock and expiry date, one recipe, one
    supplier. *)
Definition mono_lab (inventory : Q) (expiry : option Z)
    : Mono.LaboratorySystem :=
  Mono.add_supplier "Merck" "contacto@merck.com"
    (Mono.add_recipe mono_titration
       (Mono.add_reagent (mono_acid inventory expiry)
          Mono.LaboratorySystem_init)).

End Scenario.

(** * Properties *)

(** ** Numbers and dictionaries *)

Lemma Qlt_bool_iff (x y : Q) : Qlt_bool x y = true <-> (x < y)%Q.
Proof.
  unfold Qlt_bool. rewrite negb_true_iff.
  split.
  - intros H. apply Qnot_le_lt. intros Hle.
    apply Qle_bool_iff in Hle. congruence.
  - intros H. destruct (Qle_bool y x) eqn:E; [|reflexivity].
    apply Qle_bool_iff in E. exfalso. exact (Qlt_not_le _ _ H E).
Qed.

Lemma Qlt_bool_false_iff (x y : Q) : Qlt_bool x y = false <-> (y <= x)%Q.
Proof.
  unfold Qlt_bool. rewrite negb_false_iff. apply Qle_bool_iff.
Qed.


Lemma dict_get_set_eq {V} (k : string) (v : V) (d : dict V) :
  dict_get k (dict_set k v d) = Some v.
Proof.
  induction d as [|[k' v'] d IH]; simpl.
  - now rewrite String.eqb_refl.
  - destruct (String.eqb k k') eqn:E; simpl.
    + now rewrite String.eqb_refl.
    + now rewrite E.
Qed.

Lemma dict_get_set_ne {V} (k k0 : string) (v : V) (d : dict V) :
  k0 <> k -> dict_get k0 (dict_set k v d) = dict_get k0 d.
Proof.
  intros Hne. induction d as [|[k' v'] d IH]; simpl.
  - destruct (String.eqb k0 k) eqn:E; [|reflexivity].
    apply String.eqb_eq in E. contradiction.
  - destruct (String.eqb k k') eqn:E; simpl.
    + apply String.eqb_eq in E. subst k'.
      destruct (String.eqb k0 k) eqn:E0; [|reflexivity].
      apply String.eqb_eq in E0. contradiction.
    + now rewrite IH.
Qed.

Lemma dict_mem_keys {V} (k : string) (d : dict V) :
  dict_mem k d = true <-> In k (dict_keys d).
Proof.
  unfold dict_mem. induction d as [|[k' v'] d IH]; simpl.
  - split; [discriminate | tauto].
  - destruct (String.eqb k k') eqn:E.
    + apply String.eqb_eq in E. subst. split; auto.
    + apply String.eqb_neq in E. rewrite IH. split; [auto|].
      intros [H|H]; [congruence | exact H].
Qed.

(** ** Stock updates *)

Section SplitUpdateInventory.

Variables (now : datetime) (reason : string).

(** An update that would drive the stock below zero is refused and changes
    nothing. *)
Lemma split_update_inventory_rejects (r : Split.Reagent) (a : Q) :
  (Split.r_inventory r + a < 0)%Q ->
  Split.update_inventory now a reason r = (false, r).
Proof.
  intros H. unfold Split.update_inventory.
  apply Qlt_bool_iff in H. now rewrite H.
Qed.

(** Any other update is applied and recorded once: as a purchase when the
    amount is positive, as a usage otherwise. *)
Lemma split_update_inventory_applies (r : Split.Reagent) (a : Q) :
  (0 <= Split.r_inventory r + a)%Q ->
  let r' := snd (Split.update_inventory now a reason r) in
  let t := {| Split.t_date := dt_day now; Split.t_amount := a;
              Split.t_reason := reason;
              Split.t_new_level := (Split.r_inventory r + a)%Q |} in
  fst (Split.update_inventory now a reason r) = true /\
  Split.r_inventory r' = (Split.r_inventory r + a)%Q /\
  ((0 < a)%Q ->
     Split.r_purchase_history r' = Split.r_purchase_history r ++ [t] /\
     Split.r_usage_history r' = Split.r_usage_history r) /\
  ((a < 0)%Q ->
     Split.r_usage_history r' = Split.r_usage_history r ++ [t] /\
     Split.r_purchase_history r' = Split.r_purchase_history r).
Proof.
  intros H r' t. subst r' t. unfold Split.update_inventory.
  apply Qlt_bool_false_iff in H. rewrite H.
  destruct (Qlt_bool 0 a) eqn:Ha; simpl.
  - apply Qlt_bool_iff in Ha.
    split; [reflexivity|]. split; [reflexivity|].
    split; [intros _; split; reflexivity|].
    intros Hneg. exfalso.
    exact (Qlt_irrefl _ (Qlt_trans _ _ _ Ha Hneg)).
  - split; [reflexivity|]. split; [reflexivity|].
    split; [|intros _; split; reflexivity].
    intros Hpos. apply Qlt_bool_iff in Hpos. congruence.
Qed.

(** The stock of the module variant stays non-negative through one
    update. *)
Lemma split_update_inventory_nonneg (r : Split.Reagent) (a : Q) :
  (0 <= Split.r_inventory r)%Q ->
  (0 <= Split.r_inventory (snd (Split.update_inventory now a reason r)))%Q.
Proof.
  intros H. unfold Split.update_inventory.
  destruct (Qlt_bool (Split.r_inventory r + a) 0) eqn:E; [exact H|].
  apply Qlt_bool_false_iff in E.
  destruct (Qlt_bool 0 a); exact E.
Qed.

End SplitUpdateInventory.

(** A sequence of calls of [update_inventory] of the module variant, each
    with its own clock reading, amount and reason. *)
Lemma split_update_inventory_sequence_nonneg
    (calls : list (datetime * Q * string)) (r : Split.Reagent) :
  (0 <= Split.r_inventory r)%Q ->
  (0 <= Split.r_inventory
          (fold_left
             (fun r c => snd (Split.update_inventory (fst (fst c))
                                (snd (fst c)) (snd c) r))
             calls r))%Q.
Proof.
  revert r. induction calls as [|[[now a] reason] calls IH]; intros r H.
  - exact H.
  - simpl. apply IH. now apply split_update_inventory_nonneg.
Qed.

(** C2.  [Reagent.update_inventory] of the single-script variant has no floor
    check: on a reagent holding 100 units, [update_inventory(-150, "used")]
    is applied, leaves a stock of -50 and records one usage, where the claim
    requires the update to be refused and the reagent left unchanged.  The
    module variant refuses the same update. *)
Theorem mono_update_inventory_goes_negative :
  let r := Scenario.mono_acid 100 None in
  let r' := Mono.update_inventory Scenario.an_instant (-150) "used" r in
  (Mono.r_inventory r + -150 < 0)%Q /\
  Mono.r_inventory r' = (-50)%Q /\
  (Mono.r_inventory r' < 0)%Q /\
  Mono.r_usage_history r' =
    [{| Mono.t_date := dt_day Scenario.an_instant; Mono.t_amount := -150;
        Mono.t_old_level := 100; Mono.t_new_level := -50;
        Mono.t_reason := "used" |}] /\
  Split.update_inventory Scenario.an_instant (-150) "used"
    (Scenario.split_acid 100 None) = (false, Scenario.split_acid 100 None).
Proof.
  repeat split.
Qed.

(** ** Expiry *)

(** In the single-script variant a dated reagent is expired exactly from its
    expiry date on, and an undated one never is. *)
Lemma mono_is_expired_spec (now : datetime) (r : Mono.Reagent) :
  Mono.is_expired now r = true <->
  exists expiry, Mono.r_expiry_date r = Some expiry /\ expiry <= dt_day now.
Proof.
  unfold Mono.is_expired. destruct (Mono.r_expiry_date r) as [expiry|].
  - rewrite Z.leb_le. split.
    + intros H. exists expiry. split; [reflexivity | exact H].
    + intros [d [Hd Hle]]. congruence.
  - split; [discriminate|]. intros [d [Hd _]]. discriminate.
Qed.

(** In the module variant the comparison is strict and made on instants. *)
Lemma split_is_expired_spec (now : datetime) (r : Split.Reagent) :
  Split.is_expired now r = true <->
  exists expiry,
    Split.r_expiry_date r = Some expiry /\
    (dt_day expiry < dt_day now \/
     (dt_day expiry = dt_day now /\ dt_micro expiry < dt_micro now)).
Proof.
  unfold Split.is_expired, datetime_gtb.
  destruct (Split.r_expiry_date r) as [expiry|].
  - rewrite orb_true_iff, andb_true_iff, !Z.ltb_lt, Z.eqb_eq. split.
    + intros H. exists expiry. split; [reflexivity | exact H].
    + intros [d [Hd H]]. congruence.
  - split; [discriminate|]. intros [d [Hd _]]. discriminate.
Qed.

(** C8.  [Reagent.is_expired] of the module variant compares
    [datetime.now()] strictly with midnight of the expiry date: for a reagent
    expiring on 2024-01-01 it answers false at 2024-01-01 00:00:00.000000,
    where the claim requires true for the whole expiry date; one microsecond
    later it answers true, and the single-script variant answers true at both
    instants. *)
Theorem split_is_expired_false_at_midnight_of_expiry :
  let r := Scenario.split_acid 100 (Some Scenario.day_2024_01_01) in
  let r0 := Scenario.mono_acid 100 (Some Scenario.day_2024_01_01) in
  let t0 := midnight Scenario.day_2024_01_01 in
  let t1 := {| dt_day := Scenario.day_2024_01_01; dt_micro := 1 |} in
  let eve := {| dt_day := Scenario.day_2023_12_31;
                dt_micro := 86399999999 |} in
  Split.is_expired t0 r = false /\
  Split.is_expired t1 r = true /\
  Split.is_expired eve r = false /\
  Mono.is_expired t0 r0 = true /\
  Mono.is_expired t1 r0 = true /\
  Mono.is_expired eve r0 = false.
Proof.
  repeat split.
Qed.

(** ** Stock updates through the inventory manager *)

(** [update_stock] answers false for an unknown reagent and changes
    nothing. *)
Lemma split_update_stock_unknown (now : datetime) (n reason : string) (a : Q)
    (im : Split.InventoryManager) :
  Split.im_reagents im !! n = None ->
  Split.update_stock now n a reason im = (false, im).
Proof.
  intros H. unfold Split.update_stock. now rewrite H.
Qed.

(** For a known reagent it answers true whatever [update_inventory]
    answered, and stores the reagent as [update_inventory] left it. *)
Lemma split_update_stock_known (now : datetime) (n reason : string) (a : Q)
    (im : Split.InventoryManager) (r : Split.Reagent) :
  Split.im_reagents im !! n = Some r ->
  Split.update_stock now n a reason im =
    (true,
     Split.set_reagents im
       (<[n := snd (Split.update_inventory now a reason r)]>
          (Split.im_reagents im))).
Proof.
  intros H. unfold Split.update_stock. now rewrite H.
Qed.

(** C6.  [InventoryManager.update_stock] drops the answer of
    [update_inventory]: with 5 units of "Acid" in stock,
    [update_stock("Acid", -10, "used")] answers true although
    [update_inventory] refused the update (answered false) and the stock is
    still 5, where the claim requires the failure to be reported. *)
Theorem split_update_stock_reports_success_on_rejection :
  let acid := Scenario.split_acid 5 None in
  let im := Split.add_reagent acid Split.InventoryManager_init in
  let out := Split.update_stock Scenario.an_instant "Acid" (-10) "used" im in
  fst (Split.update_inventory Scenario.an_instant (-10) "used" acid) = false /\
  fst out = true /\
  Split.im_reagents (snd out) !! "Acid" = Some acid.
Proof.
  vm_compute. repeat split.
Qed.

(** ** Validation of results *)

Lemma mono_validate_results_loop_spec (ms : list string) (results : dict Q)
    (validations : dict Mono.Validation) :
  Mono.validate_results_loop ms results validations = true <->
  forall m, In m ms ->
    dict_mem m results = true /\
    exists v, dict_get m validations = Some v /\ Mono.v_is_valid v = true.
Proof.
  induction ms as [|m0 ms IH]; simpl.
  - split; [intros _ m [] | reflexivity].
  - destruct (dict_mem m0 results) eqn:Hmem; simpl.
    + destruct (dict_get m0 validations) as [v0|] eqn:Hget; simpl.
      * destruct (Mono.v_is_valid v0) eqn:Hv; simpl.
        -- rewrite IH. split.
           ++ intros H m [<-|Hin]; [|now apply H].
              split; [exact Hmem|]. exists v0. now split.
           ++ intros H m Hin. apply H. now right.
        -- split; [discriminate|]. intros H.
           destruct (H m0 (or_introl eq_refl)) as [_ [v [Hv0 Hv1]]].
           congruence.
      * split; [discriminate|]. intros H.
        destruct (H m0 (or_introl eq_refl)) as [_ [v [Hv0 _]]].
        congruence.
    + split; [discriminate|]. intros H.
      destruct (H m0 (or_introl eq_refl)) as [Hm _]. congruence.
Qed.

(** In the single-script variant [validate_results] is true exactly when
    every measurement declared by the recipe has a recorded value and a
    recorded validation that says valid. *)
Lemma mono_validate_results_spec (e : Mono.Experiment) :
  Mono.validate_results e = true <->
  forall m, In m (dict_keys (Mono.rc_expected_results (Mono.e_recipe e))) ->
    dict_mem m (Mono.e_results e) = true /\
    exists v, dict_get m (Mono.e_measurement_validations e) = Some v /\
              Mono.v_is_valid v = true.
Proof.
  apply mono_validate_results_loop_spec.
Qed.

(** C3.  [Experiment.validate_results] of the module variant only looks at
    the measurements that were recorded: for a recipe that declares "pH" in
    [6.8, 7.2] and "T" in [20, 25], an experiment with the single result
    pH = 7 validates, although "T" is absent from its results, where the
    claim requires false. *)
Theorem split_validate_results_accepts_missing_measurement :
  let e := state_of (Split.record_result "pH" 7 None
                       (Scenario.fresh Scenario.titration)) in
  dict_mem "T" (Split.rc_expected_results (Split.e_recipe e)) = true /\
  dict_mem "T" (Split.e_results e) = false /\
  Split.validate_results e = true.
Proof.
  vm_compute. repeat split.
Qed.

(** ** Recording a result *)

Lemma half_eq_zero (x : Q) : (x / 2 == 0)%Q <-> (x == 0)%Q.
Proof.
  split; intros H.
  - assert (E : (x == x / 2 * 2)%Q) by (field; discriminate).
    rewrite E, H. reflexivity.
  - rewrite H. reflexivity.
Qed.

Section SplitRecordResult.

Variables (e : Split.Experiment) (m : string) (v min_val max_val : Q)
          (raw_data : option (dict Q)).

Hypothesis expected :
  dict_get m (Split.rc_expected_results (Split.e_recipe e))
  = Some (min_val, max_val).

(** When the middle of the expected range is not zero, the value is
    stored, the validation is stored with the deviation from the middle in
    percent, and the answer says whether the value is in the range. *)
Lemma split_record_result_nonzero_midpoint :
  ~ (min_val + max_val == 0)%Q ->
  let target := ((min_val + max_val) / 2)%Q in
  Split.record_result m v raw_data e =
    Ret (in_range min_val v max_val)
      (Split.set_validations
         (Split.set_results e (dict_set m v (Split.e_results e)))
         (dict_set m
            {| Split.v_value := v;
               Split.v_is_valid := in_range min_val v max_val;
               Split.v_deviation := ((v - target) / target * 100)%Q;
               Split.v_raw_data := default [] raw_data;
               Split.v_expected_range := (min_val, max_val) |}
            (Split.e_measurement_validations e))).
Proof.
  intros Hmid target. subst target.
  unfold Split.record_result, bind, get, put, lift, ret, py_div. simpl.
  rewrite expected.
  destruct (Qeq_bool ((min_val + max_val) / 2) 0) eqn:E; [|reflexivity].
  apply Qeq_bool_iff in E.
  exfalso. exact (Hmid (proj1 (half_eq_zero _) E)).
Qed.

(** When it is zero, the division raises after the value was stored. *)
Lemma split_record_result_zero_midpoint :
  (min_val + max_val == 0)%Q ->
  Split.record_result m v raw_data e =
    Raise ZeroDivisionError
      (Split.set_results e (dict_set m v (Split.e_results e))).
Proof.
  intros Hmid.
  unfold Split.record_result, bind, get, put, lift, ret, py_div. simpl.
  rewrite expected.
  destruct (Qeq_bool ((min_val + max_val) / 2) 0) eqn:E; [reflexivity|].
  apply (proj2 (half_eq_zero _)) in Hmid. apply Qeq_bool_iff in Hmid.
  congruence.
Qed.

End SplitRecordResult.

(** C10.  [Experiment.record_result] divides by the middle of the expected
    range without a guard: for the declared measurement "offset" with range
    [-1, 1], recording the value 0 stores the value and then raises
    [ZeroDivisionError], and so does [evaluate_measurement(0, -1, 1)];
    the claim requires the call to return for every declared measurement. *)
Theorem split_record_result_raises_on_zero_midpoint :
  let e := Scenario.fresh Scenario.zeroing in
  dict_get "offset" (Split.rc_expected_results (Split.e_recipe e))
    = Some ((-1)%Q, 1%Q) /\
  Split.record_result "offset" 0 None e =
    Raise ZeroDivisionError (Split.set_results e [("offset", 0%Q)]) /\
  Split.evaluate_measurement 0 (-1) 1 = Err ZeroDivisionError.
Proof.
  vm_compute. repeat split.
Qed.

(** ** Snapshots *)

Lemma validate_string_ok (s : string) :
  Validator.strip s <> "" ->
  Validator.validate_string s = Ok (Validator.strip s).
Proof.
  intros H. unfold Validator.validate_string.
  destruct (String.eqb (Validator.strip s) "") eqn:E; [|reflexivity].
  apply String.eqb_eq in E. contradiction.
Qed.

Lemma validate_positive_number_ok (q : Q) :
  (0 < q)%Q -> Validator.validate_positive_number q = Ok q.
Proof.
  intros H. unfold Validator.validate_positive_number.
  destruct (Qle_bool q 0) eqn:E; [|reflexivity].
  apply Qle_bool_iff in E. exfalso. exact (Qlt_not_le _ _ H E).
Qed.

Lemma validate_positive_number_err (q : Q) :
  (q <= 0)%Q -> Validator.validate_positive_number q = Err ValueError.
Proof.
  intros H. unfold Validator.validate_positive_number.
  apply Qle_bool_iff in H. now rewrite H.
Qed.

(** A reagent of the module variant with valid fields and some stock left is
    read back from its snapshot as it was. *)
Lemma split_reagent_roundtrip (r : Split.Reagent) :
  Validator.strip (Split.r_name r) <> "" ->
  Validator.strip (Split.r_description r) <> "" ->
  Validator.strip (Split.r_category r) <> "" ->
  Validator.strip (Split.r_unit r) <> "" ->
  (0 < Split.r_cost r)%Q ->
  (0 < Split.r_inventory r)%Q ->
  (0 < Split.r_min_threshold r)%Q ->
  Split.r_location r <> "" ->
  (forall expiry, Split.r_expiry_date r = Some expiry -> dt_micro expiry = 0) ->
  Split.Reagent_from_dict (Split.Reagent_to_dict r) = Ok r.
Proof.
  intros Hn Hd Hc Hu Hcost Hinv Hmin Hloc Hexp.
  unfold Split.Reagent_from_dict, Split.Reagent_init, Split.Reagent_to_dict.
  simpl.
  rewrite !validate_string_ok, !validate_positive_number_ok by assumption.
  simpl. unfold Split.set_histories. simpl.
  destruct r as [n d c cat inv u mt ex loc si ph uh]. simpl in *.
  f_equal. f_equal.
  - destruct ex as [[day micro]|]; [|reflexivity].
    specialize (Hexp _ eq_refl). simpl in Hexp. subst micro.
    reflexivity.
  - destruct (String.eqb loc "") eqn:E; [|reflexivity].
    apply String.eqb_eq in E. contradiction.
Qed.

(** A reagent of the module variant whose stock is zero or less is not read
    back: the constructor called by [from_dict] refuses it. *)
Lemma split_reagent_from_dict_needs_stock (r : Split.Reagent) :
  (Split.r_inventory r <= 0)%Q ->
  Split.Reagent_from_dict (Split.Reagent_to_dict r) = Err ValueError.
Proof.
  intros Hinv. apply Qle_bool_iff in Hinv.
  unfold Split.Reagent_from_dict, Split.Reagent_init, Split.Reagent_to_dict.
  simpl. unfold Validator.validate_string, Validator.validate_positive_number.
  rewrite Hinv.
  repeat match goal with
         | |- context [String.eqb ?s ""] => destruct (String.eqb s ""); simpl
         | |- context [Qle_bool (Split.r_cost r) 0] =>
             destruct (Qle_bool (Split.r_cost r) 0); simpl
         end; reflexivity.
Qed.

Lemma map_values_tuple_list (d : dict Mono.pyseq) :
  Forall (fun kv => exists l, snd kv = Mono.PTuple l) d ->
  Mono.map_values Mono.to_tuple (Mono.map_values Mono.to_list d) = d.
Proof.
  induction 1 as [|[k v] d [l Hl] _ IH]; simpl; [reflexivity|].
  simpl in Hl. subst v. simpl. now rewrite IH.
Qed.

(** A recipe of the single-script variant whose expected ranges are tuples is
    read back from its snapshot as it was: the ranges go to lists and
    back. *)
Lemma mono_recipe_roundtrip (rc : Mono.Recipe) :
  Validator.strip (Mono.rc_name rc) = Mono.rc_name rc ->
  Validator.strip (Mono.rc_objective rc) = Mono.rc_objective rc ->
  Mono.rc_name rc <> "" ->
  Mono.rc_objective rc <> "" ->
  Mono.rc_reagents rc <> [] ->
  Mono.rc_expected_results rc <> [] ->
  Forall (fun kv => exists l, snd kv = Mono.PTuple l)
    (Mono.rc_expected_results rc) ->
  Mono.Recipe_from_dict (Mono.Recipe_to_dict rc) = Ok rc.
Proof.
  intros Hn Ho Hn0 Ho0 Hr He Ht.
  unfold Mono.Recipe_from_dict, Mono.Recipe_to_dict, Mono.Recipe_init. simpl.
  rewrite !validate_string_ok by congruence. simpl.
  rewrite map_values_tuple_list by assumption.
  destruct rc as [n o rs ex pr]. simpl in *.
  destruct rs as [|r0 rs]; [contradiction|].
  destruct ex as [|e0 ex]; [contradiction|].
  now rewrite Hn, Ho.
Qed.

(** C5.  A reagent whose stock has been used up is not read back from its
    snapshot.  In both variants: a reagent created with 10 units and debited
    by 10 holds exactly 0; [to_dict] writes it; [from_dict] hands the stock
    to the constructor, which validates it as a positive number and raises
    [ValueError], where the claim requires the reloaded reagent to have the
    same inventory. *)
Theorem reagent_with_no_stock_left_is_not_reloaded :
  (exists r r',
     Split.Reagent_init "Acid" "Acetic acid" 2 "Acids" 10 "mL" 20
       None (Some "Shelf A") None = Ok r /\
     Split.update_inventory Scenario.an_instant (-10) "used" r = (true, r') /\
     Split.r_inventory r' = 0%Q /\
     Split.Reagent_from_dict (Split.Reagent_to_dict r') = Err ValueError) /\
  (exists r,
     Mono.Reagent_init "Acid" "Acetic acid" 2 "Acids" 10 "mL" 20
       None (Some "Shelf A") None = Ok r /\
     let r' := Mono.update_inventory Scenario.an_instant (-10) "used" r in
     Mono.r_inventory r' = 0%Q /\
     Mono.Reagent_from_dict (Mono.Reagent_to_dict r') = Err ValueError).
Proof.
  split.
  - eexists. eexists. split; [vm_compute; reflexivity|].
    split; [vm_compute; reflexivity|].
    split; vm_compute; reflexivity.
  - eexists. split; [vm_compute; reflexivity|].
    split; vm_compute; reflexivity.
Qed.

(** ** Orders *)

Section MonoPlaceOrder.

Variables (now : datetime) (reagent_name supplier_name : string)
          (quantity : Q) (lab : Mono.LaboratorySystem).

(** An order for an unknown reagent is refused and nothing is recorded. *)
Lemma mono_place_order_unknown_reagent :
  Mono.reagents lab !! reagent_name = None ->
  Mono.place_order now reagent_name quantity supplier_name lab =
    (inl (Mono.ReagentNotFound reagent_name), lab).
Proof.
  intros H. unfold Mono.place_order. now rewrite H.
Qed.

(** So is an order to an unknown supplier. *)
Lemma mono_place_order_unknown_supplier (reagent : Mono.Reagent) :
  Mono.reagents lab !! reagent_name = Some reagent ->
  Mono.suppliers lab !! supplier_name = None ->
  Mono.place_order now reagent_name quantity supplier_name lab =
    (inl (Mono.SupplierNotFound supplier_name), lab).
Proof.
  intros Hr Hs. unfold Mono.place_order. now rewrite Hr, Hs.
Qed.

(** Otherwise one order is appended to the orders of the reagent: pending,
    due seven days after the order date; the other reagents are left as
    they were. *)
Lemma mono_place_order_known (reagent : Mono.Reagent) (supplier : Mono.Supplier) :
  Mono.reagents lab !! reagent_name = Some reagent ->
  Mono.suppliers lab !! supplier_name = Some supplier ->
  exists order lab',
    Mono.place_order now reagent_name quantity supplier_name lab =
      (inr order, lab') /\
    Mono.o_status order = "pendiente" /\
    Mono.o_order_date order = dt_day now /\
    Mono.o_expected_delivery order = Mono.o_order_date order + 7 /\
    Mono.o_order_id order = Mono.timestamp now /\
    (exists reagent',
       Mono.reagents lab' !! reagent_name = Some reagent' /\
       Mono.r_orders reagent' = Mono.r_orders reagent ++ [order]) /\
    (forall n, n <> reagent_name ->
       Mono.reagents lab' !! n = Mono.reagents lab !! n).
Proof.
  intros Hr Hs. unfold Mono.place_order. rewrite Hr, Hs.
  eexists. eexists. split; [reflexivity|]. simpl.
  repeat split.
  - eexists. split; [apply lookup_insert_eq | reflexivity].
  - intros n Hn. now apply lookup_insert_ne.
Qed.

End MonoPlaceOrder.

(** C9.  [InventoryManager.place_order] looks up neither the reagent nor the
    supplier and computes no delivery date: on an empty manager,
    [place_order("Ghost", 1, "Nobody")] returns the pending order "ORD-1" and
    appends it to the order history, where the claim requires the call to
    fail and to record nothing.  [LaboratorySystem.place_order] of the
    single-script variant makes both checks, but its order id is the clock
    reading to the second: two orders placed within the same second carry
    the same id. *)
Theorem split_place_order_accepts_unknown_names :
  let im := Split.InventoryManager_init in
  let out := Split.place_order Scenario.an_instant "Ghost" 1 "Nobody" im in
  let later := {| dt_day := dt_day Scenario.an_instant;
                  dt_micro := dt_micro Scenario.an_instant + 1 |} in
  let lab := Scenario.mono_lab 100 None in
  let first := Mono.place_order Scenario.an_instant "Acid" 1 "Merck" lab in
  let second := Mono.place_order later "Acid" 2 "Merck" (snd first) in
  Split.im_reagents im !! "Ghost" = None /\
  Split.im_suppliers im !! "Nobody" = None /\
  Split.o_order_id (fst out) = "ORD-1" /\
  Split.o_status (fst out) = "pending" /\
  Split.im_order_history (snd out) = [fst out] /\
  (exists o1 o2,
     fst first = inr o1 /\ fst second = inr o2 /\
     Mono.o_quantity o1 <> Mono.o_quantity o2 /\
     Mono.o_order_id o1 = Mono.o_order_id o2 /\
     (Mono.r_orders <$> Mono.reagents (snd second) !! "Acid")
       = Some [o1; o2]).
Proof.
  vm_compute.
  repeat split.
  eexists. eexists.
  split; [reflexivity|]. split; [reflexivity|].
  split; [discriminate|]. split; reflexivity.
Qed.

(** ** Experiments in the module variant *)

(** [add_result] reads [experiment.get_detailed_results] first, which no
    [Experiment] has. *)
Lemma split_add_result_raises (experiment : Split.Experiment)
    (notes : string) (rm : Split.ResultManager) :
  Split.add_result experiment notes rm = Raise AttributeError rm.
Proof. reflexivity. Qed.

(** Recording a result raises nothing but [ZeroDivisionError]. *)
Lemma split_record_result_raise (m : string) (v : Q)
    (raw_data : option (dict Q)) (e e' : Split.Experiment) (ex : exn) :
  Split.record_result m v raw_data e = Raise ex e' -> ex = ZeroDivisionError.
Proof.
  unfold Split.record_result, bind, get, put, lift, ret, py_div. simpl.
  destruct (dict_get m _) as [[min_val max_val]|]; [|discriminate].
  destruct (Qeq_bool _ 0); [|discriminate].
  congruence.
Qed.

Lemma split_record_all_raise (ms : dict Q) (e e' : Split.Experiment)
    (ex : exn) :
  Split.record_all ms e = Raise ex e' -> ex = ZeroDivisionError.
Proof.
  revert e. induction ms as [|[m v] ms IH]; intros e; simpl.
  - discriminate.
  - unfold Split.record_all in *. simpl. unfold bind at 1. unfold bind at 1.
    simpl.
    destruct (Split.record_result m v None e) as [b e1|ex1 e1] eqn:E.
    + unfold ret at 1. apply IH.
    + intros H. injection H as -> _.
      exact (split_record_result_raise _ _ _ _ _ _ E).
Qed.

Section SplitDebit.

Variables (now : datetime) (reason : string).

(** Debiting does not touch the reagents that the recipe does not name. *)
Lemma split_debit_all_other (required : dict Q) (im : Split.InventoryManager)
    (n : string) :
  ~ In n (dict_keys required) ->
  Split.im_reagents (Split.debit_all now reason required im) !! n
  = Split.im_reagents im !! n.
Proof.
  revert im. induction required as [|[n0 a0] required IH]; intros im Hn.
  - reflexivity.
  - simpl in *. rewrite IH by tauto.
    unfold Split.update_stock.
    destruct (Split.im_reagents im !! n0); [|reflexivity].
    simpl. apply lookup_insert_ne. tauto.
Qed.

(** After the availability check, every required reagent is debited by the
    amount that the recipe asks for. *)
Lemma split_debit_all_debits (required : dict Q) (im : Split.InventoryManager)
    (n : string) (a : Q) :
  NoDup (dict_keys required) ->
  Split.reagents_available (Split.im_reagents im) required = true ->
  In (n, a) required ->
  exists r r',
    Split.im_reagents im !! n = Some r /\
    Split.im_reagents (Split.debit_all now reason required im) !! n = Some r' /\
    Split.r_inventory r' = (Split.r_inventory r + - a)%Q.
Proof.
  revert im. induction required as [|[n0 a0] required IH]; intros im Hnd Hav Hin.
  - destruct Hin.
  - simpl in Hnd. apply NoDup_cons in Hnd as [Hn0 Hnd].
    simpl in Hav.
    destruct (Split.im_reagents im !! n0) as [r0|] eqn:Hr0; [|discriminate].
    destruct (Qlt_bool (Split.r_inventory r0) a0) eqn:Hstock; [discriminate|].
    simpl. rewrite (split_update_stock_known _ _ _ _ _ _ Hr0). simpl.
    destruct Hin as [Heq|Hin].
    + injection Heq as -> ->.
      exists r0. eexists. split; [exact Hr0|]. split.
      * rewrite split_debit_all_other.
        -- simpl. apply lookup_insert_eq.
        -- intros Hin. apply Hn0. now apply list_elem_of_In.
      * apply Qlt_bool_false_iff in Hstock.
        apply split_update_inventory_applies.
        apply (Qplus_le_l _ _ a). ring_simplify. exact Hstock.
    + assert (Hne : n0 <> n).
      { intros ->. apply Hn0. apply list_elem_of_In.
        apply (in_map fst) in Hin. exact Hin. }
      destruct (IH (Split.set_reagents im
                      (<[n0 := snd (Split.update_inventory now (- a0) reason r0)]>
                         (Split.im_reagents im)))) as [r [r' [H1 [H2 H3]]]].
      * exact Hnd.
      * simpl. clear -Hav Hn0.
        induction required as [|[n1 a1] required IH]; [reflexivity|].
        simpl in *.
        assert (Hne : n0 <> n1).
        { intros ->. apply Hn0. apply list_elem_of_here. }
        rewrite lookup_insert_ne by exact Hne.
        destruct (Split.im_reagents im !! n1) as [r1|]; [|discriminate].
        destruct (Qlt_bool (Split.r_inventory r1) a1); [discriminate|].
        apply IH; [|exact Hav].
        intros Hin. apply Hn0. now apply list_elem_of_further.
      * exact Hin.
      * simpl in H1. rewrite lookup_insert_ne in H1 by exact Hne.
        exists r, r'. auto.
Qed.

End SplitDebit.

Section SplitPerformExperiment.

Variables (now : datetime) (recipe_name : string)
          (responsible_people : list string) (measurements : dict Q)
          (notes : string) (lab : Split.LaboratorySystem).

(** A required reagent that is missing or short makes the availability
    check of the module variant fail; the expiry date plays no part. *)
Lemma split_reagents_available_detects (rs : gmap string Split.Reagent)
    (required : dict Q) (n : string) (a : Q) :
  In (n, a) required ->
  (rs !! n = None \/
   exists r, rs !! n = Some r /\ (Split.r_inventory r < a)%Q) ->
  Split.reagents_available rs required = false.
Proof.
  intros Hin Hbad.
  induction required as [|[n0 a0] required IH]; [destruct Hin|].
  simpl.
  destruct (rs !! n0) as [r0|] eqn:Hr0; [|reflexivity].
  destruct (Qlt_bool (Split.r_inventory r0) a0) eqn:Hstock; [reflexivity|].
  destruct Hin as [Heq|Hin]; [|now apply IH].
  injection Heq as -> ->. exfalso.
  destruct Hbad as [Hnone|[r [Hr Hlt]]]; [congruence|].
  apply Qlt_bool_iff in Hlt. congruence.
Qed.

(** An unknown recipe, or a required reagent that is missing or short: the
    call returns [None] and changes nothing. *)
Lemma split_perform_experiment_refuses :
  (Split.recipes lab !! recipe_name = None \/
   exists recipe n a,
     Split.recipes lab !! recipe_name = Some recipe /\
     In (n, a) (Split.rc_reagents recipe) /\
     (Split.im_reagents (Split.inventory_manager lab) !! n = None \/
      exists r, Split.im_reagents (Split.inventory_manager lab) !! n = Some r /\
                (Split.r_inventory r < a)%Q)) ->
  Split.perform_experiment now recipe_name responsible_people measurements
    notes lab
  = Ret None lab.
Proof.
  unfold Split.perform_experiment.
  intros [->|[recipe [n [a [-> [Hin Hbad]]]]]]; [reflexivity|].
  now rewrite (split_reagents_available_detects _ _ _ _ Hin Hbad).
Qed.

(** When the recipe is known, the availability check passes, somebody is
    responsible and every measurement is recorded, the call debits the stock
    and then fails in [add_result]. *)
Lemma split_perform_experiment_reaches_add_result (recipe : Split.Recipe)
    (experiment0 experiment : Split.Experiment) :
  Split.recipes lab !! recipe_name = Some recipe ->
  Split.reagents_available (Split.im_reagents (Split.inventory_manager lab))
    (Split.rc_reagents recipe) = true ->
  Split.Experiment_init now recipe responsible_people None = Ok experiment0 ->
  Split.record_all measurements experiment0 = Ret tt experiment ->
  Split.perform_experiment now recipe_name responsible_people measurements
    notes lab
  = Raise AttributeError
      {| Split.inventory_manager :=
           Split.debit_all now ("Usado en experimento: " +:+ recipe_name)
             (Split.rc_reagents recipe) (Split.inventory_manager lab);
         Split.result_manager := Split.result_manager lab;
         Split.recipes := Split.recipes lab |}.
Proof.
  intros Hrecipe Hav He0 He. unfold Split.perform_experiment.
  rewrite Hrecipe, Hav. cbn [negb]. now rewrite He0, He.
Qed.

End SplitPerformExperiment.

(** C7.  [ResultManager.add_result] raises [AttributeError] for every
    experiment of the module variant and appends nothing, none of the four
    attributes that it reads beyond those of [__init__] being defined; hence
    [perform_experiment] never returns a result and never changes the result
    history; and when it raises that error, the recipe was found, every
    update of the stock was already made, and (the names of a dictionary
    being distinct) every required reagent has been debited by the amount of
    the recipe. *)
Theorem split_add_result_raises_attribute_error :
  (forall (experiment : Split.Experiment) (notes : string)
          (rm : Split.ResultManager),
     Split.add_result experiment notes rm = Raise AttributeError rm /\
     Forall (fun attr =>
               Split.Experiment_getattr experiment attr = Err AttributeError)
       ["get_detailed_results"; "validations"; "deviations";
        "is_successful"]) /\
  (forall now recipe_name people measurements notes lab,
     let out := Split.perform_experiment now recipe_name people measurements
                  notes lab in
     Split.result_manager (state_of out) = Split.result_manager lab /\
     forall result lab', out <> Ret (Some result) lab') /\
  (forall now recipe_name people measurements notes lab lab',
     Split.perform_experiment now recipe_name people measurements notes lab
       = Raise AttributeError lab' ->
     exists recipe,
       Split.recipes lab !! recipe_name = Some recipe /\
       Split.inventory_manager lab' =
         Split.debit_all now ("Usado en experimento: " +:+ recipe_name)
           (Split.rc_reagents recipe) (Split.inventory_manager lab) /\
       (NoDup (dict_keys (Split.rc_reagents recipe)) ->
        forall n a, In (n, a) (Split.rc_reagents recipe) ->
          exists r r',
            Split.im_reagents (Split.inventory_manager lab) !! n = Some r /\
            Split.im_reagents (Split.inventory_manager lab') !! n = Some r' /\
            Split.r_inventory r' = (Split.r_inventory r + - a)%Q)).
Proof.
  split.
  { intros experiment notes rm. split; [apply split_add_result_raises|].
    repeat constructor. }
  split.
  - intros now recipe_name people measurements notes lab out. subst out.
    unfold Split.perform_experiment.
    destruct (Split.recipes lab !! recipe_name) as [recipe|];
      [|split; [reflexivity | discriminate]].
    destruct (Split.reagents_available _ _); cbn [negb];
      [|split; [reflexivity | discriminate]].
    destruct (Split.Experiment_init now recipe people None) as [e0|ex];
      [|split; [reflexivity | discriminate]].
    destruct (Split.record_all measurements e0) as [[] e1|ex e1];
      [|split; [reflexivity | discriminate]].
    rewrite split_add_result_raises. split; [reflexivity | discriminate].
  - intros now recipe_name people measurements notes lab lab'.
    unfold Split.perform_experiment.
    destruct (Split.recipes lab !! recipe_name) as [recipe|]; [|discriminate].
    destruct (Split.reagents_available _ _) eqn:Hav; cbn [negb];
      [|discriminate].
    destruct (Split.Experiment_init now recipe people None) as [e0|ex] eqn:He0.
    + destruct (Split.record_all measurements e0) as [[] e1|ex e1] eqn:He1.
      * rewrite split_add_result_raises. intros H. injection H as <-.
        exists recipe. split; [reflexivity|]. split; [reflexivity|].
        intros Hnd n a Hin. simpl.
        now apply split_debit_all_debits.
      * intros H. injection H as -> _.
        apply split_record_all_raise in He1. discriminate.
    + intros H. injection H as -> _.
      unfold Split.Experiment_init in He0. destruct people; discriminate.
Qed.

(** The error does occur: a titration on 100 units of an undated acid passes
    the checks, debits 10 units and then fails in [add_result]. *)
Lemma split_add_result_raises_attribute_error_witness :
  let lab := Scenario.lab_fresh_acid in
  let out := Split.perform_experiment Scenario.an_instant "Titration"
               ["Ana"] [("pH", 7%Q)] "" lab in
  out = Raise AttributeError (state_of out) /\
  Split.result_manager (state_of out) = Split.result_manager lab /\
  exists r r',
    Split.im_reagents (Split.inventory_manager lab) !! "Acid" = Some r /\
    Split.im_reagents (Split.inventory_manager (state_of out)) !! "Acid"
      = Some r' /\
    Split.r_inventory r' = (Split.r_inventory r + - 10)%Q.
Proof.
  intros lab out.
  assert (H : out = Raise AttributeError (state_of out))
    by (vm_compute; reflexivity).
  split; [exact H|].
  split;
    [exact (proj1 (proj1 (proj2 split_add_result_raises_attribute_error)
                     _ _ _ _ _ _))|].
  destruct (proj2 (proj2 split_add_result_raises_attribute_error)
              _ _ _ _ _ _ _ H) as [recipe [Hrecipe [_ Hdebit]]].
  assert (Hr : recipe = Scenario.titration).
  { vm_compute in Hrecipe. injection Hrecipe as <-. reflexivity. }
  subst recipe.
  exact (Hdebit (NoDup_singleton "Acid") "Acid" 10%Q (or_introl eq_refl)).
Defined.

(** C1.  [perform_experiment] of the module variant does not look at the
    expiry date: with 100 units of an acid that expired on 2024-01-01 and a
    recipe that needs 10, a run on 2024-06-01 is not refused; the stock goes
    to 90, one usage is recorded, and the call then fails in [add_result]
    with [AttributeError].  The claim requires the call to fail with the
    stock as it was.  The single-script variant refuses the same run and
    changes nothing. *)
Theorem split_perform_experiment_changes_stock_of_expired_reagent :
  let now := Scenario.an_instant in
  let lab := Scenario.lab_expired_acid in
  let acid := Scenario.split_acid 100 (Some Scenario.day_2024_01_01) in
  let out := Split.perform_experiment now "Titration" ["Ana"] [("pH", 7%Q)]
               "" lab in
  let mono := Scenario.mono_lab 100 (Some Scenario.day_2024_01_01) in
  Split.im_reagents (Split.inventory_manager lab) !! "Acid" = Some acid /\
  Split.is_expired now acid = true /\
  (exists lab', out = Raise AttributeError lab') /\
  (Split.r_inventory <$>
     Split.im_reagents (Split.inventory_manager (state_of out)) !! "Acid")
    = Some 90%Q /\
  (length <$> (Split.r_usage_history <$>
     Split.im_reagents (Split.inventory_manager (state_of out)) !! "Acid"))
    = Some 1%nat /\
  Mono.perform_experiment now "Titration" ["Ana"] [("pH", 7%Q)] "" mono
    = Ret (inl (Mono.ReagentExpired "Acid")) mono.
Proof.
  vm_compute.
  split; [reflexivity|]. split; [reflexivity|].
  split; [eexists; reflexivity|].
  repeat split.
Qed.

(** C4.  In the module variant an expired reagent is consumed: for a buffer
    that needs 5 units of a base and 10 units of an acid expired since
    2024-01-01, [Recipe.validate_reagents] answers false on 2024-06-01, yet
    [perform_experiment] does not return its failure value [None]; it debits
    both reagents, the expired acid included, and records the usage.  The
    claim requires a failure with [Expired] before any change. *)
Theorem split_perform_experiment_consumes_expired_reagent :
  let now := Scenario.an_instant in
  let lab := Scenario.lab_buffer in
  let out := Split.perform_experiment now "Buffer" ["Ana"; "Luis"]
               [("pH", 7.4%Q)] "" lab in
  let reagents' := Split.im_reagents (Split.inventory_manager (state_of out)) in
  Split.validate_reagents now Scenario.buffer
    (Split.im_reagents (Split.inventory_manager lab)) = false /\
  (Split.is_expired now <$>
     Split.im_reagents (Split.inventory_manager lab) !! "Acid") = Some true /\
  out <> Ret None lab /\
  (Split.r_inventory <$> reagents' !! "Base") = Some 45%Q /\
  (Split.r_inventory <$> reagents' !! "Acid") = Some 90%Q /\
  (Split.r_usage_history <$> reagents' !! "Acid")
    = Some [{| Split.t_date := dt_day now; Split.t_amount := (-10)%Q;
               Split.t_reason := "Usado en experimento: Buffer";
               Split.t_new_level := 90%Q |}].
Proof.
  vm_compute.
  split; [reflexivity|]. split; [reflexivity|].
  split; [discriminate|].
  repeat split.
Qed.

(** ** Experiments in the single-script variant *)

Section MonoPerformExperiment.

Variables (now : datetime) (recipe_name : string)
          (responsible_people : list string) (measurements : dict Q)
          (notes : string) (lab : Mono.LaboratorySystem).

(** A required reagent that is missing, short or expired makes the
    availability check fail. *)
Lemma mono_check_reagents_detects (rs : gmap string Mono.Reagent)
    (required : dict Q) (n : string) (a : Q) :
  In (n, a) required ->
  (rs !! n = None \/
   exists r, rs !! n = Some r /\
             ((Mono.r_inventory r < a)%Q \/ Mono.is_expired now r = true)) ->
  exists err, Mono.check_reagents now rs required = Some err.
Proof.
  intros Hin Hbad.
  induction required as [|[n0 a0] required IH]; [destruct Hin|].
  simpl.
  destruct (rs !! n0) as [r0|] eqn:Hr0; [|eauto].
  destruct (Qlt_bool (Mono.r_inventory r0) a0) eqn:Hstock; [eauto|].
  destruct (Mono.is_expired now r0) eqn:Hexp; [eauto|].
  destruct Hin as [Heq|Hin]; [|now apply IH].
  injection Heq as -> ->. exfalso.
  destruct Hbad as [Hnone|[r [Hr [Hlt|He]]]]; try congruence.
  apply Qlt_bool_iff in Hlt. congruence.
Qed.

(** The reagent named by the error is the first one, in the order of the
    recipe, that fails a check; if that reagent is in stock and expired, the
    error is [ReagentExpired]. *)
Lemma mono_check_reagents_first_expired (rs : gmap string Mono.Reagent)
    (passed rest : dict Q) (n : string) (a : Q) (r : Mono.Reagent) :
  Mono.check_reagents now rs passed = None ->
  rs !! n = Some r ->
  (a <= Mono.r_inventory r)%Q ->
  Mono.is_expired now r = true ->
  Mono.check_reagents now rs (passed ++ (n, a) :: rest)
  = Some (Mono.ReagentExpired n).
Proof.
  intros Hpassed Hr Hstock Hexp.
  induction passed as [|[n0 a0] passed IH]; simpl in *.
  - rewrite Hr. apply Qlt_bool_false_iff in Hstock. now rewrite Hstock, Hexp.
  - destruct (rs !! n0) as [r0|]; [|discriminate].
    destruct (Qlt_bool (Mono.r_inventory r0) a0); [discriminate|].
    destruct (Mono.is_expired now r0); [discriminate|].
    now apply IH.
Qed.

(** An unknown recipe: the call returns an error and changes nothing. *)
Lemma mono_perform_experiment_unknown_recipe :
  Mono.recipes lab !! recipe_name = None ->
  Mono.perform_experiment now recipe_name responsible_people measurements
    notes lab
  = Ret (inl (Mono.RecipeNotFound recipe_name)) lab.
Proof.
  intros H. unfold Mono.perform_experiment. now rewrite H.
Qed.

(** A failed availability check: the call returns the error of the check and
    changes nothing. *)
Lemma mono_perform_experiment_check_fails (recipe : Mono.Recipe)
    (err : Mono.error) :
  Mono.recipes lab !! recipe_name = Some recipe ->
  Mono.check_reagents now (Mono.reagents lab) (Mono.rc_reagents recipe)
    = Some err ->
  Mono.perform_experiment now recipe_name responsible_people measurements
    notes lab
  = Ret (inl err) lab.
Proof.
  intros Hrecipe Hcheck. unfold Mono.perform_experiment.
  now rewrite Hrecipe, Hcheck.
Qed.

(** [perform_experiment] of the single-script variant is all-or-nothing:
    when the recipe is unknown, or a required reagent is missing, short or
    expired, it returns an error and leaves the reagents and the list of
    experiments as they were. *)
Lemma mono_perform_experiment_atomic :
  (Mono.recipes lab !! recipe_name = None \/
   exists recipe n a,
     Mono.recipes lab !! recipe_name = Some recipe /\
     In (n, a) (Mono.rc_reagents recipe) /\
     (Mono.reagents lab !! n = None \/
      exists r, Mono.reagents lab !! n = Some r /\
                ((Mono.r_inventory r < a)%Q \/ Mono.is_expired now r = true))) ->
  exists err,
    Mono.perform_experiment now recipe_name responsible_people measurements
      notes lab
    = Ret (inl err) lab.
Proof.
  intros [Hnone|[recipe [n [a [Hrecipe [Hin Hbad]]]]]].
  - eexists. now apply mono_perform_experiment_unknown_recipe.
  - destruct (mono_check_reagents_detects _ _ _ _ Hin Hbad) as [err Herr].
    exists err. now apply mono_perform_experiment_check_fails with recipe.
Qed.

(** Once the check has passed, debiting finds every reagent. *)
Lemma mono_debit_all_returns (reason : string) (required : dict Q)
    (rs : gmap string Mono.Reagent) :
  (forall n, In n (dict_keys required) -> is_Some (rs !! n)) ->
  exists rs',
    Mono.debit_all now reason required rs = Ret tt rs' /\
    (forall n, is_Some (rs' !! n) <-> is_Some (rs !! n)).
Proof.
  revert rs. induction required as [|[n0 a0] required IH]; intros rs Hdom.
  - exists rs. split; [reflexivity | tauto].
  - simpl. unfold bind, get, lift, put, Mono.reagent_at. simpl.
    destruct (Hdom n0 (or_introl eq_refl)) as [r0 Hr0]. rewrite Hr0.
    set (rs1 := <[n0 := Mono.update_inventory now (- a0) reason r0]> rs).
    assert (Hsame : forall n, is_Some (rs1 !! n) <-> is_Some (rs !! n)).
    { intros n. unfold rs1. destruct (decide (n0 = n)) as [->|Hne].
      - rewrite lookup_insert_eq, Hr0. split; eauto.
      - now rewrite lookup_insert_ne. }
    destruct (IH rs1) as [rs' [Hrun Hdom']].
    + intros n Hn. apply Hsame. apply Hdom. now right.
    + exists rs'. split; [exact Hrun|].
      intros n. rewrite Hdom'. apply Hsame.
Qed.

Lemma mono_total_cost_returns (rs : gmap string Mono.Reagent)
    (required : dict Q) (acc : Q) :
  (forall n, In n (dict_keys required) -> is_Some (rs !! n)) ->
  exists cost, Mono.total_cost rs required acc = Ok cost.
Proof.
  revert acc. induction required as [|[n0 a0] required IH]; intros acc Hdom.
  - eexists. reflexivity.
  - simpl. unfold Mono.reagent_at.
    destruct (Hdom n0 (or_introl eq_refl)) as [r0 Hr0]. rewrite Hr0. simpl.
    apply IH. intros n Hn. apply Hdom. now right.
Qed.

Lemma mono_check_reagents_passed (rs : gmap string Mono.Reagent)
    (required : dict Q) :
  Mono.check_reagents now rs required = None ->
  forall n, In n (dict_keys required) -> is_Some (rs !! n).
Proof.
  induction required as [|[n0 a0] required IH]; simpl; [tauto|].
  destruct (rs !! n0) as [r0|] eqn:Hr0; [|discriminate].
  destruct (Qlt_bool (Mono.r_inventory r0) a0); [discriminate|].
  destruct (Mono.is_expired now r0); [discriminate|].
  intros Hrest n [<-|Hn]; [eauto | now apply IH].
Qed.

(** When the recipe is known and the check passes, the call returns the
    experiment and appends it to the list of experiments. *)
Lemma mono_perform_experiment_runs (recipe : Mono.Recipe) :
  Mono.recipes lab !! recipe_name = Some recipe ->
  Mono.check_reagents now (Mono.reagents lab) (Mono.rc_reagents recipe)
    = None ->
  exists experiment lab',
    Mono.perform_experiment now recipe_name responsible_people measurements
      notes lab
    = Ret (inr experiment) lab' /\
    Mono.experiments lab' = Mono.experiments lab ++ [experiment] /\
    Mono.e_success experiment =
      Mono.validate_results
        (Mono.record_all measurements
           (Mono.set_notes
              (Mono.Experiment_init now recipe responsible_people) notes)).
Proof.
  intros Hrecipe Hcheck. unfold Mono.perform_experiment.
  rewrite Hrecipe, Hcheck.
  pose proof (mono_check_reagents_passed _ _ Hcheck) as Hdom.
  destruct (mono_debit_all_returns
              ("Usado en experimento: " +:+ recipe_name) _ _ Hdom)
    as [rs' [-> Hdom']].
  destruct (mono_total_cost_returns rs' (Mono.rc_reagents recipe) 0)
    as [cost ->].
  - intros n Hn. apply Hdom'. now apply Hdom.
  - eexists. eexists. split; [reflexivity|]. split; reflexivity.
Qed.

End MonoPerformExperiment.

(** * Further properties *)

(** ** Stock of the module variant over a sequence of updates *)

(** Three updates of 100 units: 30 used, 90 refused, 5 bought. *)
Lemma split_update_inventory_sequence_nonneg_witness :
  let calls := [(Scenario.an_instant, (-30)%Q, "used");
                (Scenario.an_instant, (-90)%Q, "used");
                (Scenario.an_instant, 5%Q, "bought")] in
  let r := Scenario.split_acid 100 None in
  (0 <= Split.r_inventory r)%Q /\
  (0 <= Split.r_inventory
          (fold_left
             (fun r c => snd (Split.update_inventory (fst (fst c))
                                (snd (fst c)) (snd c) r))
             calls r))%Q.
Proof.
  intros calls r.
  assert (H : (0 <= Split.r_inventory r)%Q) by (vm_compute; discriminate).
  split; [exact H|].
  exact (split_update_inventory_sequence_nonneg calls r H).
Defined.

(** ** Expiry in days *)

(** [days_until_expiry] of the script: nothing for an undated reagent;
    otherwise a number of days that is never negative, is zero exactly when
    the reagent is expired, and is the distance to the expiry date when it
    is not. *)
Lemma mono_days_until_expiry_spec (now : datetime) (r : Mono.Reagent) :
  (Mono.r_expiry_date r = None <-> Mono.days_until_expiry now r = None) /\
  (forall d, Mono.days_until_expiry now r = Some d ->
     0 <= d /\
     (d = 0 <-> Mono.is_expired now r = true) /\
     (forall expiry, Mono.r_expiry_date r = Some expiry ->
        Mono.is_expired now r = false -> d = expiry - dt_day now)).
Proof.
  unfold Mono.days_until_expiry, Mono.is_expired.
  destruct (Mono.r_expiry_date r) as [expiry|].
  - split; [split; [discriminate | destruct (expiry <=? dt_day now); discriminate]|].
    intros d. destruct (expiry <=? dt_day now) eqn:E; intros H;
      injection H as Hd; subst d.
    + split; [lia|]. split; [tauto|]. intros e _ Hf. discriminate.
    + apply Z.leb_gt in E. split; [lia|]. split.
      * split; [lia | discriminate].
      * intros e He _. congruence.
  - split; [tauto | discriminate].
Qed.

(** ** Feasibility of a recipe in the script *)

(** [Recipe.validate_reagents] answers true exactly when every required
    reagent is present, in sufficient stock and not expired. *)
Lemma mono_validate_reagents_spec (now : datetime) (rc : Mono.Recipe)
    (available : gmap string Mono.Reagent) :
  Mono.validate_reagents now rc available = true <->
  forall n a, In (n, a) (Mono.rc_reagents rc) ->
    exists r, available !! n = Some r /\
              (a <= Mono.r_inventory r)%Q /\
              Mono.is_expired now r = false.
Proof.
  unfold Mono.validate_reagents.
  induction (Mono.rc_reagents rc) as [|[n0 a0] required IH]; simpl.
  - split; [intros _ n a [] | reflexivity].
  - destruct (available !! n0) as [r0|] eqn:Hr0.
    + destruct (Qlt_bool (Mono.r_inventory r0) a0) eqn:Hstock; simpl.
      * split; [discriminate|]. intros H.
        destruct (H n0 a0 (or_introl eq_refl)) as [r [Hr [Hle _]]].
        apply Qlt_bool_false_iff in Hle. congruence.
      * destruct (Mono.is_expired now r0) eqn:Hexp.
        -- split; [discriminate|]. intros H.
           destruct (H n0 a0 (or_introl eq_refl)) as [r [Hr [_ He]]].
           congruence.
        -- rewrite IH. apply Qlt_bool_false_iff in Hstock. split.
           ++ intros H n a [Heq|Hin]; [|now apply H].
              injection Heq as <- <-. exists r0. auto.
           ++ intros H n a Hin. apply H. now right.
    + split; [discriminate|]. intros H.
      destruct (H n0 a0 (or_introl eq_refl)) as [r [Hr _]]. congruence.
Qed.

Lemma mono_validate_reagents_check (now : datetime)
    (available : gmap string Mono.Reagent) (required : dict Q) :
  Mono.validate_reagents_loop now available required = true <->
  Mono.check_reagents now available required = None.
Proof.
  induction required as [|[n0 a0] required IH]; simpl; [tauto|].
  destruct (available !! n0) as [r0|]; [|split; discriminate].
  destruct (Qlt_bool (Mono.r_inventory r0) a0); simpl; [split; discriminate|].
  destruct (Mono.is_expired now r0); [split; discriminate | exact IH].
Qed.

(** For a registered recipe, [perform_experiment] runs the experiment
    exactly when [Recipe.validate_reagents] accepts the stock. *)
Theorem mono_validate_reagents_decides_perform_experiment
    (now : datetime) (recipe_name : string) (people : list string)
    (measurements : dict Q) (notes : string) (lab : Mono.LaboratorySystem)
    (recipe : Mono.Recipe) :
  Mono.recipes lab !! recipe_name = Some recipe ->
  (Mono.validate_reagents now recipe (Mono.reagents lab) = true <->
   exists experiment lab',
     Mono.perform_experiment now recipe_name people measurements notes lab
     = Ret (inr experiment) lab').
Proof.
  intros Hrecipe. unfold Mono.validate_reagents.
  rewrite mono_validate_reagents_check. split.
  - intros Hcheck.
    destruct (mono_perform_experiment_runs now recipe_name people
                measurements notes lab recipe Hrecipe Hcheck)
      as [e [lab' [H _]]].
    eauto.
  - intros [e [lab' H]].
    destruct (Mono.check_reagents now (Mono.reagents lab)
                (Mono.rc_reagents recipe)) as [err|] eqn:Hcheck;
      [|reflexivity].
    rewrite (mono_perform_experiment_check_fails now recipe_name people
               measurements notes lab recipe err Hrecipe Hcheck) in H.
    discriminate.
Qed.

Lemma mono_validate_reagents_decides_perform_experiment_witness :
  let lab := Scenario.mono_lab 100 None in
  Mono.recipes lab !! "Titration" = Some Scenario.mono_titration /\
  (Mono.validate_reagents Scenario.an_instant Scenario.mono_titration
     (Mono.reagents lab) = true <->
   exists experiment lab',
     Mono.perform_experiment Scenario.an_instant "Titration" ["Ana"]
       [("pH", 7%Q)] "" lab
     = Ret (inr experiment) lab').
Proof.
  intros lab.
  assert (H : Mono.recipes lab !! "Titration" = Some Scenario.mono_titration)
    by (vm_compute; reflexivity).
  split; [exact H|].
  exact (mono_validate_reagents_decides_perform_experiment
           Scenario.an_instant "Titration" ["Ana"] [("pH", 7%Q)] "" lab
           Scenario.mono_titration H).
Defined.

(** ** What a run of the script changes *)

Lemma dict_get_not_key {V} (k : string) (d : dict V) :
  ~ In k (dict_keys d) -> dict_get k d = None.
Proof.
  intros H. destruct (dict_get k d) eqn:E; [|reflexivity].
  exfalso. apply H. apply dict_mem_keys. unfold dict_mem. now rewrite E.
Qed.

Lemma mono_debit_all_effect (now : datetime) (reason : string)
    (required : dict Q) (rs rs' : gmap string Mono.Reagent) :
  NoDup (dict_keys required) ->
  Mono.debit_all now reason required rs = Ret tt rs' ->
  (forall n a, In (n, a) required ->
     exists r, rs !! n = Some r /\
               rs' !! n = Some (Mono.update_inventory now (- a) reason r)) /\
  (forall n, ~ In n (dict_keys required) -> rs' !! n = rs !! n).
Proof.
  revert rs. induction required as [|[n0 a0] required IH]; intros rs Hnd Hrun.
  - simpl in Hrun. injection Hrun as <-. split; [intros n a [] | reflexivity].
  - simpl in Hnd. apply NoDup_cons in Hnd as [Hn0 Hnd].
    rewrite list_elem_of_In in Hn0.
    simpl in Hrun. unfold bind, get, lift, put, Mono.reagent_at in Hrun.
    simpl in Hrun.
    destruct (rs !! n0) as [r0|] eqn:Hr0; [|discriminate].
    destruct (IH _ Hnd Hrun) as [Hin Hout]. split.
    + intros n a [Heq|Hna].
      * injection Heq as <- <-. exists r0. split; [exact Hr0|].
        rewrite (Hout n0 Hn0). apply lookup_insert_eq.
      * destruct (Hin n a Hna) as [r [Hr Hr']].
        assert (Hne : n0 <> n).
        { intros ->. apply Hn0. apply (in_map fst) in Hna. exact Hna. }
        rewrite lookup_insert_ne in Hr by exact Hne. eauto.
    + intros n Hn. simpl in Hn.
      rewrite (Hout n) by tauto. apply lookup_insert_ne. tauto.
Qed.

Lemma mono_perform_experiment_inv (now : datetime) (recipe_name : string)
    (people : list string) (measurements : dict Q) (notes : string)
    (lab lab' : Mono.LaboratorySystem) (recipe : Mono.Recipe)
    (experiment : Mono.Experiment) :
  Mono.recipes lab !! recipe_name = Some recipe ->
  Mono.perform_experiment now recipe_name people measurements notes lab
  = Ret (inr experiment) lab' ->
  Mono.check_reagents now (Mono.reagents lab) (Mono.rc_reagents recipe) = None /\
  Mono.debit_all now ("Usado en experimento: " +:+ recipe_name)
    (Mono.rc_reagents recipe) (Mono.reagents lab)
  = Ret tt (Mono.reagents lab') /\
  Mono.total_cost (Mono.reagents lab') (Mono.rc_reagents recipe) 0
  = Ok (Mono.e_cost experiment) /\
  Mono.experiments lab' = Mono.experiments lab ++ [experiment] /\
  Mono.recipes lab' = Mono.recipes lab /\
  Mono.suppliers lab' = Mono.suppliers lab.
Proof.
  intros Hrecipe. unfold Mono.perform_experiment. rewrite Hrecipe.
  destruct (Mono.check_reagents _ _ _); [discriminate|].
  destruct (Mono.debit_all _ _ _ _) as [[] rs|ex rs]; [|discriminate].
  destruct (Mono.total_cost rs _ 0) as [cost|ex] eqn:Hcost; [|discriminate].
  intros H. injection H as <- <-. simpl. repeat split. exact Hcost.
Qed.

Lemma mono_check_reagents_stock (now : datetime)
    (rs : gmap string Mono.Reagent) (required : dict Q) (n : string) (a : Q)
    (r : Mono.Reagent) :
  Mono.check_reagents now rs required = None ->
  In (n, a) required -> rs !! n = Some r ->
  (a <= Mono.r_inventory r)%Q.
Proof.
  intros Hcheck Hin Hr.
  induction required as [|[n0 a0] required IH]; [destruct Hin|].
  simpl in Hcheck.
  destruct (rs !! n0) as [r0|] eqn:Hr0; [|discriminate].
  destruct (Qlt_bool (Mono.r_inventory r0) a0) eqn:Hstock; [discriminate|].
  destruct (Mono.is_expired now r0); [discriminate|].
  destruct Hin as [Heq|Hin]; [|now apply IH].
  injection Heq as -> ->. apply Qlt_bool_false_iff in Hstock. congruence.
Qed.

(** A run of [perform_experiment] that returns an experiment debits every
    required reagent by exactly the amount of the recipe, never below zero,
    leaves every other reagent as it was, and appends that one experiment;
    recipes and suppliers are untouched. *)
Theorem mono_perform_experiment_debits
    (now : datetime) (recipe_name : string) (people : list string)
    (measurements : dict Q) (notes : string)
    (lab lab' : Mono.LaboratorySystem) (recipe : Mono.Recipe)
    (experiment : Mono.Experiment) :
  Mono.recipes lab !! recipe_name = Some recipe ->
  NoDup (dict_keys (Mono.rc_reagents recipe)) ->
  Mono.perform_experiment now recipe_name people measurements notes lab
  = Ret (inr experiment) lab' ->
  (forall n a, In (n, a) (Mono.rc_reagents recipe) ->
     exists r r',
       Mono.reagents lab !! n = Some r /\
       Mono.reagents lab' !! n = Some r' /\
       Mono.r_inventory r' = (Mono.r_inventory r + - a)%Q /\
       (0 <= Mono.r_inventory r')%Q) /\
  (forall n, ~ In n (dict_keys (Mono.rc_reagents recipe)) ->
     Mono.reagents lab' !! n = Mono.reagents lab !! n) /\
  Mono.experiments lab' = Mono.experiments lab ++ [experiment] /\
  Mono.recipes lab' = Mono.recipes lab /\
  Mono.suppliers lab' = Mono.suppliers lab.
Proof.
  intros Hrecipe Hnd Hrun.
  destruct (mono_perform_experiment_inv _ _ _ _ _ _ _ _ _ Hrecipe Hrun)
    as [Hcheck [Hdebit [_ [Hexp [Hrc Hsup]]]]].
  destruct (mono_debit_all_effect _ _ _ _ _ Hnd Hdebit) as [Hin Hout].
  split; [|auto].
  intros n a Hna. destruct (Hin n a Hna) as [r [Hr Hr']].
  exists r. eexists. split; [exact Hr|]. split; [exact Hr'|].
  split; [reflexivity|]. simpl.
  pose proof (mono_check_reagents_stock _ _ _ _ _ _ Hcheck Hna Hr) as Hle.
  apply (Qplus_le_l _ _ a). ring_simplify. exact Hle.
Qed.

Lemma mono_perform_experiment_debits_witness :
  let lab := Scenario.mono_lab 100 None in
  let out := Mono.perform_experiment Scenario.an_instant "Titration" ["Ana"]
               [("pH", 7%Q)] "" lab in
  (exists experiment, out = Ret (inr experiment) (state_of out)) /\
  exists r r',
    Mono.reagents lab !! "Acid" = Some r /\
    Mono.reagents (state_of out) !! "Acid" = Some r' /\
    Mono.r_inventory r' = (Mono.r_inventory r + - 10)%Q /\
    (0 <= Mono.r_inventory r')%Q.
Proof.
  intros lab out.
  assert (Hrun : exists experiment, out = Ret (inr experiment) (state_of out))
    by (eexists; vm_compute; reflexivity).
  split; [exact Hrun|].
  destruct Hrun as [experiment Hrun].
  assert (Hrecipe : Mono.recipes lab !! "Titration"
                    = Some Scenario.mono_titration)
    by (vm_compute; reflexivity).
  exact (proj1 (mono_perform_experiment_debits Scenario.an_instant
                  "Titration" ["Ana"] [("pH", 7%Q)] "" lab (state_of out)
                  Scenario.mono_titration experiment Hrecipe
                  (NoDup_singleton "Acid") Hrun)
           "Acid" 10%Q (or_introl eq_refl)).
Defined.

(** ** Cost of a recipe in the script *)

(** [Recipe.calculate_total_cost] raises [ValueError], and nothing else,
    exactly when a required reagent is missing from the catalogue. *)
Lemma mono_calculate_total_cost_error (rc : Mono.Recipe)
    (available : gmap string Mono.Reagent) :
  (Mono.calculate_total_cost rc available = Err ValueError <->
   exists n, In n (dict_keys (Mono.rc_reagents rc)) /\ available !! n = None) /\
  (forall e, Mono.calculate_total_cost rc available = Err e -> e = ValueError).
Proof.
  unfold Mono.calculate_total_cost. generalize 0%Q.
  induction (Mono.rc_reagents rc) as [|[n0 a0] required IH]; intros acc; simpl.
  - split; [|discriminate]. split; [discriminate|]. intros [n [[] _]].
  - destruct (available !! n0) as [r0|] eqn:Hr0.
    + destruct (IH (acc + a0 * Mono.r_cost r0)%Q) as [IH1 IH2].
      split; [|exact IH2]. rewrite IH1. split.
      * intros [n [Hin Hn]]. exists n. auto.
      * intros [n [[<-|Hin] Hn]]; [congruence|]. exists n. auto.
    + split; [|congruence]. split; [|reflexivity].
      intros _. exists n0. auto.
Qed.

Lemma mono_debit_all_keeps_cost (now : datetime) (reason : string)
    (required : dict Q) (rs rs' : gmap string Mono.Reagent) :
  Mono.debit_all now reason required rs = Ret tt rs' ->
  forall n, Mono.r_cost <$> rs' !! n = Mono.r_cost <$> rs !! n.
Proof.
  revert rs. induction required as [|[n0 a0] required IH]; intros rs Hrun n.
  - simpl in Hrun. now injection Hrun as <-.
  - simpl in Hrun. unfold bind, get, lift, put, Mono.reagent_at in Hrun.
    simpl in Hrun.
    destruct (rs !! n0) as [r0|] eqn:Hr0; [|discriminate].
    rewrite (IH _ Hrun n).
    destruct (decide (n0 = n)) as [->|Hne].
    + now rewrite lookup_insert_eq, Hr0.
    + now rewrite lookup_insert_ne.
Qed.

Lemma mono_total_cost_agrees (rs rs' : gmap string Mono.Reagent)
    (required : dict Q) (acc acc' cost : Q) :
  (forall n, Mono.r_cost <$> rs' !! n = Mono.r_cost <$> rs !! n) ->
  (acc == acc')%Q ->
  Mono.total_cost rs' required acc = Ok cost ->
  exists q, Mono.calculate_total_cost_loop rs required acc' = Ok q /\
            (cost == q)%Q.
Proof.
  intros Hcost. revert acc acc'.
  induction required as [|[n0 a0] required IH]; intros acc acc' Hacc; simpl.
  - intros H. injection H as <-. eauto.
  - unfold Mono.reagent_at. specialize (Hcost n0).
    destruct (rs' !! n0) as [r0'|]; [|discriminate].
    destruct (rs !! n0) as [r0|]; [|discriminate].
    simpl in *. injection Hcost as Hc. apply IH.
    rewrite Hacc, Hc. ring.
Qed.

(** The cost stored in an experiment that was run equals
    [Recipe.calculate_total_cost] on the stock before the run: debiting does
    not change unit costs. *)
Theorem mono_experiment_cost_is_recipe_cost
    (now : datetime) (recipe_name : string) (people : list string)
    (measurements : dict Q) (notes : string)
    (lab lab' : Mono.LaboratorySystem) (recipe : Mono.Recipe)
    (experiment : Mono.Experiment) :
  Mono.recipes lab !! recipe_name = Some recipe ->
  Mono.perform_experiment now recipe_name people measurements notes lab
  = Ret (inr experiment) lab' ->
  exists q,
    Mono.calculate_total_cost recipe (Mono.reagents lab) = Ok q /\
    Mono.calculate_total_cost recipe (Mono.reagents lab') = Ok q /\
    (Mono.e_cost experiment == q)%Q.
Proof.
  intros Hrecipe Hrun.
  destruct (mono_perform_experiment_inv _ _ _ _ _ _ _ _ _ Hrecipe Hrun)
    as [_ [Hdebit [Hcost _]]].
  pose proof (mono_debit_all_keeps_cost _ _ _ _ _ Hdebit) as Hkeep.
  destruct (mono_total_cost_agrees _ _ _ _ 0%Q _ Hkeep (Qeq_refl 0) Hcost)
    as [q [Hq Heq]].
  exists q. split; [exact Hq|]. split; [|exact Heq].
  unfold Mono.calculate_total_cost in *.
  clear -Hq Hkeep. revert Hq. generalize 0%Q.
  induction (Mono.rc_reagents recipe) as [|[n0 a0] required IH];
    intros acc; simpl; [tauto|].
  specialize (Hkeep n0).
  destruct (Mono.reagents lab' !! n0) as [r0'|];
    destruct (Mono.reagents lab !! n0) as [r0|]; try discriminate.
  simpl in Hkeep. injection Hkeep as ->. apply IH.
Qed.

Lemma mono_experiment_cost_is_recipe_cost_witness :
  let lab := Scenario.mono_lab 100 None in
  let out := Mono.perform_experiment Scenario.an_instant "Titration" ["Ana"]
               [("pH", 7%Q)] "" lab in
  exists experiment,
    out = Ret (inr experiment) (state_of out) /\
    exists q,
      Mono.calculate_total_cost Scenario.mono_titration (Mono.reagents lab)
        = Ok q /\
      Mono.calculate_total_cost Scenario.mono_titration
        (Mono.reagents (state_of out)) = Ok q /\
      (Mono.e_cost experiment == q)%Q.
Proof.
  intros lab out.
  assert (Hrun : exists experiment, out = Ret (inr experiment) (state_of out))
    by (eexists; vm_compute; reflexivity).
  destruct Hrun as [experiment Hrun]. exists experiment.
  split; [exact Hrun|].
  assert (Hrecipe : Mono.recipes lab !! "Titration"
                    = Some Scenario.mono_titration)
    by (vm_compute; reflexivity).
  exact (mono_experiment_cost_is_recipe_cost Scenario.an_instant
           "Titration" ["Ana"] [("pH", 7%Q)] "" lab (state_of out)
           Scenario.mono_titration experiment Hrecipe Hrun).
Defined.

(** ** Success of an experiment in the script *)

Lemma mono_record_all_state (ms : dict Q) (e : Mono.Experiment) (m : string) :
  NoDup (dict_keys ms) ->
  let e' := Mono.record_all ms e in
  Mono.e_recipe e' = Mono.e_recipe e /\
  dict_get m (Mono.e_results e') =
    match dict_get m ms with
    | Some v => Some v
    | None => dict_get m (Mono.e_results e)
    end /\
  dict_get m (Mono.e_measurement_validations e') =
    match dict_get m ms with
    | Some v =>
        Some (default {| Mono.v_is_valid := true;
                         Mono.v_expected_range := None |}
                (dict_get m (Mono.e_measurement_validations
                               (snd (Mono.record_result m v e)))))
    | None => dict_get m (Mono.e_measurement_validations e)
    end.
Proof.
  revert e. induction ms as [|[k v] ms IH]; intros e Hnd; simpl.
  - auto.
  - simpl in Hnd. apply NoDup_cons in Hnd as [Hk Hnd].
    rewrite list_elem_of_In in Hk.
    destruct (IH (snd (Mono.record_result k v e)) Hnd) as [Hrc [Hres Hval]].
    simpl in Hrc, Hres, Hval. rewrite Hrc, Hres, Hval.
    split; [reflexivity|].
    destruct (String.eqb m k) eqn:E.
    + apply String.eqb_eq in E. subst k.
      rewrite (dict_get_not_key _ _ Hk), !dict_get_set_eq. simpl.
      split; reflexivity.
    + apply String.eqb_neq in E.
      destruct (dict_get m ms) as [v'|]; simpl.
      * rewrite !dict_get_set_eq. simpl. split; reflexivity.
      * rewrite !dict_get_set_ne by exact E. split; reflexivity.
Qed.

(** The success flag computed by [perform_experiment]: after the
    measurements of a call have been recorded on a fresh experiment,
    [validate_results] is true exactly when every measurement that the
    recipe declares was supplied and, where the declared range is a pair,
    lies within it. *)
Theorem mono_success_iff_measurements_in_range
    (now : datetime) (recipe : Mono.Recipe) (people : list string)
    (measurements : dict Q) :
  NoDup (dict_keys measurements) ->
  Mono.validate_results
    (Mono.record_all measurements (Mono.Experiment_init now recipe people))
  = true <->
  forall m, In m (dict_keys (Mono.rc_expected_results recipe)) ->
    exists v,
      dict_get m measurements = Some v /\
      forall min_val max_val,
        dict_get m (Mono.rc_expected_results recipe)
        = Some (Mono.PTuple [min_val; max_val]) ->
        in_range min_val v max_val = true.
Proof.
  intros Hnd. unfold Mono.validate_results.
  rewrite mono_validate_results_loop_spec.
  set (e0 := Mono.Experiment_init now recipe people).
  assert (Hrc : Mono.e_recipe (Mono.record_all measurements e0) = recipe).
  { now destruct (mono_record_all_state measurements e0 "" Hnd) as [-> _]. }
  rewrite Hrc.
  assert (Hvalid : forall m v,
            Mono.v_is_valid
              (default {| Mono.v_is_valid := true;
                          Mono.v_expected_range := None |}
                 (dict_get m (Mono.e_measurement_validations
                                (snd (Mono.record_result m v e0))))) = true
            <-> forall min_val max_val,
                  dict_get m (Mono.rc_expected_results recipe)
                  = Some (Mono.PTuple [min_val; max_val]) ->
                  in_range min_val v max_val = true).
  { intros m v. unfold Mono.record_result.
    cbn [snd Mono.e_measurement_validations]. rewrite dict_get_set_eq.
    cbn [default Mono.e_recipe e0 Mono.Experiment_init].
    destruct (dict_get m (Mono.rc_expected_results recipe))
      as [[[|lo [|hi [|x l]]]|l]|]; simpl;
      try (split; [discriminate || (intros _ ? ? H; discriminate H) | reflexivity]).
    split.
    - intros H ? ? Heq. injection Heq as <- <-. exact H.
    - intros H. now apply H. }
  split.
  - intros H m Hm. destruct (H m Hm) as [Hmem [val [Hget Hv]]].
    destruct (mono_record_all_state measurements e0 m Hnd) as [_ [Hres Hval]].
    simpl in Hres, Hval.
    destruct (dict_get m measurements) as [v|] eqn:Hms.
    + exists v. split; [reflexivity|]. apply Hvalid.
      rewrite Hval in Hget. injection Hget as <-. exact Hv.
    + unfold dict_mem in Hmem. rewrite Hres in Hmem. discriminate.
  - intros H m Hm. destruct (H m Hm) as [v [Hms Hv]].
    destruct (mono_record_all_state measurements e0 m Hnd) as [_ [Hres Hval]].
    simpl in Hres, Hval. rewrite Hms in Hres, Hval.
    split; [unfold dict_mem; now rewrite Hres|].
    eexists. split; [exact Hval|]. now apply Hvalid.
Qed.

Lemma mono_success_iff_measurements_in_range_witness :
  let ms := [("pH", 7%Q); ("colour", 3%Q)] in
  NoDup (dict_keys ms) /\
  (Mono.validate_results
     (Mono.record_all ms
        (Mono.Experiment_init Scenario.an_instant Scenario.mono_titration
           ["Ana"]))
   = true <->
   forall m, In m (dict_keys (Mono.rc_expected_results Scenario.mono_titration)) ->
     exists v,
       dict_get m ms = Some v /\
       forall min_val max_val,
         dict_get m (Mono.rc_expected_results Scenario.mono_titration)
         = Some (Mono.PTuple [min_val; max_val]) ->
         in_range min_val v max_val = true).
Proof.
  intros ms.
  assert (Hnd : NoDup (dict_keys ms)).
  { apply NoDup_cons. split.
    - intros H. apply list_elem_of_In in H. destruct H as [H|[]].
      discriminate H.
    - apply NoDup_singleton. }
  split; [exact Hnd|].
  exact (mono_success_iff_measurements_in_range Scenario.an_instant
           Scenario.mono_titration ["Ana"] ms Hnd).
Defined.

(** ** Validated strings *)

Lemma lstrip_head (l : list ascii) :
  match Validator.lstrip l with
  | [] => True
  | c :: _ => Validator.is_space c = false
  end.
Proof.
  induction l as [|c l IH]; simpl; [exact I|].
  destruct (Validator.is_space c) eqn:E; [exact IH | exact E].
Qed.

Lemma lstrip_fixed (l : list ascii) :
  match l with
  | [] => True
  | c :: _ => Validator.is_space c = false
  end ->
  Validator.lstrip l = l.
Proof.
  destruct l as [|c l]; simpl; [reflexivity|]. now intros ->.
Qed.

Lemma lstrip_suffix (l : list ascii) :
  exists sp, l = sp ++ Validator.lstrip l.
Proof.
  induction l as [|c l [sp IH]]; simpl.
  - now exists [].
  - destruct (Validator.is_space c).
    + exists (c :: sp). simpl. now rewrite <- IH.
    + now exists [].
Qed.

Lemma strip_list_idempotent (l : list ascii) :
  let strip_list l :=
    rev (Validator.lstrip (rev (Validator.lstrip l))) in
  strip_list (strip_list l) = strip_list l.
Proof.
  simpl.
  set (a := Validator.lstrip l).
  set (b := Validator.lstrip (rev a)).
  assert (Hrb : Validator.lstrip (rev b) = rev b).
  { apply lstrip_fixed.
    destruct (lstrip_suffix (rev a)) as [sp Hsp]. fold b in Hsp.
    assert (Ha : a = rev b ++ rev sp).
    { rewrite <- rev_app_distr, <- Hsp. now rewrite rev_involutive. }
    pose proof (lstrip_head l) as Hhead. fold a in Hhead.
    destruct (rev b) as [|c rb]; [exact I|].
    rewrite Ha in Hhead. exact Hhead. }
  rewrite Hrb, rev_involutive.
  f_equal. apply lstrip_fixed. apply lstrip_head.
Qed.

Lemma strip_idempotent (s : string) :
  Validator.strip (Validator.strip s) = Validator.strip s.
Proof.
  unfold Validator.strip.
  rewrite list_ascii_of_string_of_list_ascii.
  f_equal. apply strip_list_idempotent.
Qed.

Lemma validate_string_fixed (s t : string) :
  Validator.validate_string s = Ok t ->
  t <> "" /\ Validator.validate_string t = Ok t.
Proof.
  unfold Validator.validate_string.
  destruct (String.eqb (Validator.strip s) "") eqn:E; [discriminate|].
  intros H. injection H as <-.
  apply String.eqb_neq in E. split; [exact E|].
  rewrite strip_idempotent.
  destruct (String.eqb (Validator.strip s) "") eqn:E'; [|reflexivity].
  apply String.eqb_eq in E'. contradiction.
Qed.

(** [validate_string] returns a string that is not empty, carries no outer
    whitespace, and is accepted unchanged by a second validation. *)
Theorem validate_string_idempotent (s t : string) :
  Validator.validate_string s = Ok t ->
  t <> "" /\ Validator.strip t = t /\ Validator.validate_string t = Ok t.
Proof.
  intros H. destruct (validate_string_fixed s t H) as [H1 H2].
  split; [exact H1|]. split; [|exact H2].
  unfold Validator.validate_string in H.
  destruct (String.eqb (Validator.strip s) ""); [discriminate|].
  injection H as <-. apply strip_idempotent.
Qed.

Lemma validate_string_idempotent_witness :
  Validator.validate_string "  Acid  " = Ok "Acid" /\
  "Acid" <> "" /\ Validator.strip "Acid" = "Acid" /\
  Validator.validate_string "Acid" = Ok "Acid".
Proof.
  assert (H : Validator.validate_string "  Acid  " = Ok "Acid")
    by (vm_compute; reflexivity).
  split; [exact H|].
  exact (validate_string_idempotent "  Acid  " "Acid" H).
Defined.

(** ** Snapshots of the script *)

Lemma mono_reagent_init_fields (name description : string) (cost : Q)
    (category : string) (inventory : Q) (unit_ : string) (min_threshold : Q)
    (expiry_date : option Z) (location : option string)
    (safety_info : option (dict string)) (r : Mono.Reagent) :
  Mono.Reagent_init name description cost category inventory unit_
    min_threshold expiry_date location safety_info = Ok r ->
  Validator.validate_string (Mono.r_name r) = Ok (Mono.r_name r) /\
  Validator.validate_string (Mono.r_description r) = Ok (Mono.r_description r) /\
  Validator.validate_string (Mono.r_category r) = Ok (Mono.r_category r) /\
  Validator.validate_string (Mono.r_unit r) = Ok (Mono.r_unit r) /\
  Validator.validate_string (Mono.r_location r) = Ok (Mono.r_location r) /\
  (0 < Mono.r_cost r)%Q /\ (0 < Mono.r_min_threshold r)%Q /\
  Mono.r_inventory r = inventory /\ (0 < inventory)%Q.
Proof.
  unfold Mono.Reagent_init.
  destruct (Validator.validate_string name) as [n|] eqn:Hn; [|discriminate].
  destruct (Validator.validate_string description) as [d|] eqn:Hd;
    [|discriminate].
  simpl. unfold Validator.validate_positive_number at 1.
  destruct (Qle_bool cost 0) eqn:Hc; [discriminate|]. simpl.
  destruct (Validator.validate_string category) as [c|] eqn:Hcat;
    [|discriminate].
  simpl. unfold Validator.validate_positive_number at 1.
  destruct (Qle_bool inventory 0) eqn:Hi; [discriminate|]. simpl.
  destruct (Validator.validate_string unit_) as [u|] eqn:Hu; [|discriminate].
  simpl. unfold Validator.validate_positive_number at 1.
  destruct (Qle_bool min_threshold 0) eqn:Hm; [discriminate|]. simpl.
  destruct (Validator.validate_string (default "Almacén general" location))
    as [l|] eqn:Hl; [|discriminate].
  simpl. intros H. injection H as <-. simpl.
  repeat split;
    try (eapply validate_string_fixed; eassumption);
    apply Qlt_bool_iff; unfold Qlt_bool; now rewrite ?Hc, ?Hi, ?Hm.
Qed.

(** A reagent built by the constructor of the script and then updated any
    number of times is read back from its snapshot exactly as it is, as long
    as its stock is positive. *)
Theorem mono_reagent_reloads_after_updates
    (name description : string) (cost : Q) (category : string)
    (inventory : Q) (unit_ : string) (min_threshold : Q)
    (expiry_date : option Z) (location : option string)
    (safety_info : option (dict string)) (r0 : Mono.Reagent)
    (calls : list (datetime * Q * string)) :
  Mono.Reagent_init name description cost category inventory unit_
    min_threshold expiry_date location safety_info = Ok r0 ->
  let r := fold_left
             (fun r c => Mono.update_inventory (fst (fst c)) (snd (fst c))
                           (snd c) r)
             calls r0 in
  (0 < Mono.r_inventory r)%Q ->
  Mono.Reagent_from_dict (Mono.Reagent_to_dict r) = Ok r.
Proof.
  intros Hinit r Hpos.
  apply mono_reagent_init_fields in Hinit.
  assert (Hinv : Validator.validate_string (Mono.r_name r) = Ok (Mono.r_name r) /\
    Validator.validate_string (Mono.r_description r) = Ok (Mono.r_description r) /\
    Validator.validate_string (Mono.r_category r) = Ok (Mono.r_category r) /\
    Validator.validate_string (Mono.r_unit r) = Ok (Mono.r_unit r) /\
    Validator.validate_string (Mono.r_location r) = Ok (Mono.r_location r) /\
    (0 < Mono.r_cost r)%Q /\ (0 < Mono.r_min_threshold r)%Q).
  { subst r. clear Hpos.
    assert (H0 : Validator.validate_string (Mono.r_name r0) = Ok (Mono.r_name r0) /\
      Validator.validate_string (Mono.r_description r0) = Ok (Mono.r_description r0) /\
      Validator.validate_string (Mono.r_category r0) = Ok (Mono.r_category r0) /\
      Validator.validate_string (Mono.r_unit r0) = Ok (Mono.r_unit r0) /\
      Validator.validate_string (Mono.r_location r0) = Ok (Mono.r_location r0) /\
      (0 < Mono.r_cost r0)%Q /\ (0 < Mono.r_min_threshold r0)%Q) by tauto.
    clear Hinit. revert r0 H0.
    induction calls as [|[[now a] reason] calls IH]; intros r0 H0;
      [exact H0|].
    simpl. apply IH. exact H0. }
  destruct Hinv as [Hn [Hd [Hc [Hu [Hl [Hcost Hmin]]]]]].
  unfold Mono.Reagent_from_dict, Mono.Reagent_init, Mono.Reagent_to_dict.
  simpl. rewrite Hn, Hd, Hc, Hu, Hl. simpl.
  rewrite !validate_positive_number_ok by assumption. simpl.
  now destruct r.
Qed.

Lemma mono_reagent_reloads_after_updates_witness :
  let calls := [(Scenario.an_instant, (-30)%Q, "used");
                (Scenario.an_instant, 5%Q, "bought")] in
  exists r0,
    Mono.Reagent_init " Acid " "Acetic acid" 2 "Acids" 100 "mL" 20
      (Some Scenario.day_2024_01_01) None None = Ok r0 /\
    let r := fold_left
               (fun r c => Mono.update_inventory (fst (fst c)) (snd (fst c))
                             (snd c) r)
               calls r0 in
    (0 < Mono.r_inventory r)%Q /\
    Mono.Reagent_from_dict (Mono.Reagent_to_dict r) = Ok r.
Proof.
  intros calls. eexists.
  assert (Hinit : Mono.Reagent_init " Acid " "Acetic acid" 2 "Acids" 100
                    "mL" 20 (Some Scenario.day_2024_01_01) None None = Ok _)
    by (vm_compute; reflexivity).
  split; [exact Hinit|].
  intros r.
  assert (Hpos : (0 < Mono.r_inventory r)%Q) by (vm_compute; reflexivity).
  split; [exact Hpos|].
  exact (mono_reagent_reloads_after_updates _ _ _ _ _ _ _ _ _ _ _ calls
           Hinit Hpos).
Defined.

Lemma validate_string_stripped (s t : string) :
  Validator.validate_string s = Ok t -> Validator.strip t = t /\ t <> "".
Proof.
  unfold Validator.validate_string.
  destruct (String.eqb (Validator.strip s) "") eqn:E; [discriminate|].
  intros H. injection H as <-. apply String.eqb_neq in E.
  split; [apply strip_idempotent | exact E].
Qed.

(** An experiment of the script whose recipe came out of the constructor
    with pairs for its expected ranges is read back from its snapshot with
    the same recipe, people, results, validations, success flag, cost and
    notes; of its date only the day is kept. *)
Theorem mono_experiment_roundtrip
    (name objective : string) (reagents : dict Q)
    (expected_results : dict Mono.pyseq) (procedure : option (list string))
    (e : Mono.Experiment) :
  Mono.Recipe_init name objective reagents expected_results procedure
  = Ok (Mono.e_recipe e) ->
  Forall (fun kv => exists l, snd kv = Mono.PTuple l) expected_results ->
  Mono.Experiment_from_dict (Mono.Experiment_to_dict e) =
    Ok {| Mono.e_recipe := Mono.e_recipe e;
          Mono.e_date := midnight (dt_day (Mono.e_date e));
          Mono.e_responsible_people := Mono.e_responsible_people e;
          Mono.e_results := Mono.e_results e;
          Mono.e_measurement_validations := Mono.e_measurement_validations e;
          Mono.e_success := Mono.e_success e;
          Mono.e_cost := Mono.e_cost e;
          Mono.e_notes := Mono.e_notes e |}.
Proof.
  intros Hinit Htuples.
  assert (Hrc : Mono.Recipe_from_dict (Mono.Recipe_to_dict (Mono.e_recipe e))
                = Ok (Mono.e_recipe e)).
  { unfold Mono.Recipe_init in Hinit.
    destruct (Validator.validate_string name) as [n|] eqn:Hn;
      [|discriminate].
    destruct (Validator.validate_string objective) as [o|] eqn:Ho;
      [|discriminate].
    simpl in Hinit.
    destruct reagents as [|r0 rs]; [discriminate|].
    destruct expected_results as [|x0 xs]; [discriminate|].
    injection Hinit as Hinit.
    destruct (validate_string_stripped _ _ Hn) as [Hn1 Hn2].
    destruct (validate_string_stripped _ _ Ho) as [Ho1 Ho2].
    apply mono_recipe_roundtrip; rewrite <- Hinit; simpl;
      try assumption; discriminate. }
  unfold Mono.Experiment_from_dict, Mono.Experiment_to_dict. simpl.
  now rewrite Hrc.
Qed.

Lemma mono_experiment_roundtrip_witness :
  let lab := Scenario.mono_lab 100 None in
  let out := Mono.perform_experiment Scenario.an_instant "Titration" ["Ana"]
               [("pH", 7%Q)] "done" lab in
  exists e,
    out = Ret (inr e) (state_of out) /\
    Mono.Recipe_init "Titration" "Neutralise" [("Acid", 10%Q)]
      [("pH", Mono.PTuple [6.8; 7.2]%Q)] (Some ["Mix"])
    = Ok (Mono.e_recipe e) /\
    Mono.e_success e = true /\
    Mono.Experiment_from_dict (Mono.Experiment_to_dict e) =
      Ok {| Mono.e_recipe := Mono.e_recipe e;
            Mono.e_date := midnight (dt_day (Mono.e_date e));
            Mono.e_responsible_people := Mono.e_responsible_people e;
            Mono.e_results := Mono.e_results e;
            Mono.e_measurement_validations :=
              Mono.e_measurement_validations e;
            Mono.e_success := Mono.e_success e;
            Mono.e_cost := Mono.e_cost e;
            Mono.e_notes := Mono.e_notes e |}.
Proof.
  intros lab out.
  assert (Hrun : exists e, out = Ret (inr e) (state_of out) /\
            Mono.Recipe_init "Titration" "Neutralise" [("Acid", 10%Q)]
              [("pH", Mono.PTuple [6.8; 7.2]%Q)] (Some ["Mix"])
            = Ok (Mono.e_recipe e) /\
            Mono.e_success e = true)
    by (eexists; vm_compute; repeat split).
  destruct Hrun as [e [Hrun [Hinit Hsuccess]]]. exists e.
  split; [exact Hrun|]. split; [exact Hinit|]. split; [exact Hsuccess|].
  apply (mono_experiment_roundtrip _ _ _ _ _ e Hinit).
  constructor; [eexists; reflexivity | constructor].
Defined.

(** ** Snapshots of the module variant *)

Lemma split_reagent_roundtrip_witness :
  let r := Scenario.split_acid 100 (Some Scenario.day_2024_01_01) in
  Split.Reagent_from_dict (Split.Reagent_to_dict r) = Ok r.
Proof.
  intros r.
  apply split_reagent_roundtrip; try (vm_compute; discriminate);
    try (vm_compute; reflexivity).
  intros expiry H. vm_compute in H. injection H as <-. reflexivity.
Defined.

(** ** Statistics *)

Lemma percent_bounds (a b : nat) :
  (a <= b)%nat -> (0 < b)%nat ->
  (0 <= inject_Z (Z.of_nat a) / inject_Z (Z.of_nat b) * 100)%Q /\
  (inject_Z (Z.of_nat a) / inject_Z (Z.of_nat b) * 100 <= 100)%Q.
Proof.
  intros Hab Hb.
  assert (Hb' : (0 < inject_Z (Z.of_nat b))%Q).
  { change 0%Q with (inject_Z 0). rewrite <- Zlt_Qlt. lia. }
  assert (Ha' : (0 <= inject_Z (Z.of_nat a))%Q).
  { change 0%Q with (inject_Z 0). rewrite <- Zle_Qle. lia. }
  assert (Hab' : (inject_Z (Z.of_nat a) <= inject_Z (Z.of_nat b))%Q).
  { rewrite <- Zle_Qle. lia. }
  assert (H0 : (0 <= inject_Z (Z.of_nat a) / inject_Z (Z.of_nat b))%Q).
  { apply Qle_shift_div_l; [exact Hb'|]. now rewrite Qmult_0_l. }
  assert (H1 : (inject_Z (Z.of_nat a) / inject_Z (Z.of_nat b) <= 1)%Q).
  { apply Qle_shift_div_r; [exact Hb'|]. now rewrite Qmult_1_l. }
  split; lra.
Qed.


Lemma mono_sum_costs_from (es : list Mono.Experiment) (acc : Q) :
  (fold_left (fun acc e => (acc + Mono.e_cost e)%Q) es acc
   == acc + Mono.sum_costs es)%Q.
Proof.
  unfold Mono.sum_costs. revert acc.
  induction es as [|e es IH]; intros acc; simpl; [ring|].
  rewrite (IH (acc + Mono.e_cost e)%Q), (IH (0 + Mono.e_cost e)%Q). ring.
Qed.



(** [count_successful] of the module variant never counts more entries than
    there are. *)
Lemma split_count_successful_le (results : list (dict Split.pyval)) (n : nat) :
  Split.count_successful results = Ok n -> (n <= length results)%nat.
Proof.
  revert n. induction results as [|r results IH]; intros n; simpl.
  - intros H. injection H as <-. lia.
  - destruct (Split.py_getitem r "exito") as [exito|]; [|discriminate]. simpl.
    destruct (Split.count_successful results) as [k|]; [|discriminate].
    simpl. intros H. injection H as <-.
    specialize (IH k eq_refl). destruct (Split.py_truthy exito); lia.
Qed.

(** [ResultManager.calculate_success_rate]: on an empty history it returns 0
    whatever the recipe name; whenever it returns, the rate lies between 0
    and 100; the only error it raises is [KeyError], for an entry without
    the key it reads. *)
Theorem split_calculate_success_rate_spec (recipe_name : option string)
    (rm : Split.ResultManager) :
  (Split.results_history rm = [] ->
     Split.calculate_success_rate recipe_name rm = Ok 0%Q) /\
  (forall q, Split.calculate_success_rate recipe_name rm = Ok q ->
     (0 <= q)%Q /\ (q <= 100)%Q) /\
  (forall e, Split.calculate_success_rate recipe_name rm = Err e ->
     e = KeyError).
Proof.
  assert (Hget : forall d k e, Split.py_getitem d k = Err e -> e = KeyError).
  { intros d k e. unfold Split.py_getitem.
    destruct (dict_get k d); [discriminate | congruence]. }
  assert (Hby : forall n h e,
            Split.get_results_by_recipe_loop n h = Err e -> e = KeyError).
  { intros n h e. induction h as [|r h IH]; simpl; [discriminate|].
    destruct (Split.py_getitem r "receta") eqn:E; simpl.
    - destruct (Split.get_results_by_recipe_loop n h); simpl;
        [discriminate|]. intros H. injection H as <-. now apply IH.
    - intros H. injection H as <-. exact (Hget _ _ _ E). }
  assert (Hcount : forall h e,
            Split.count_successful h = Err e -> e = KeyError).
  { intros h e. induction h as [|r h IH]; simpl; [discriminate|].
    destruct (Split.py_getitem r "exito") eqn:E; simpl.
    - destruct (Split.count_successful h); simpl; [discriminate|].
      intros H. injection H as <-. now apply IH.
    - intros H. injection H as <-. exact (Hget _ _ _ E). }
  unfold Split.calculate_success_rate, Split.get_results_by_recipe.
  split; [|split].
  - intros ->. destruct recipe_name as [n|]; [|reflexivity].
    destruct (String.eqb n ""); reflexivity.
  - intros q.
    destruct (match recipe_name with
              | Some n => if String.eqb n "" then Ok (Split.results_history rm)
                          else Split.get_results_by_recipe_loop n
                                 (Split.results_history rm)
              | None => Ok (Split.results_history rm)
              end) as [results|]; [|discriminate].
    simpl. destruct results as [|r results].
    + intros H. injection H as <-. split; [apply Qle_refl | discriminate].
    + destruct (Split.count_successful (r :: results)) as [k|] eqn:Hk;
        [|discriminate].
      simpl. intros H. injection H as <-.
      apply percent_bounds;
        [exact (split_count_successful_le (r :: results) k Hk)|].
      simpl. lia.
  - intros e.
    destruct (match recipe_name with
              | Some n => if String.eqb n "" then Ok (Split.results_history rm)
                          else Split.get_results_by_recipe_loop n
                                 (Split.results_history rm)
              | None => Ok (Split.results_history rm)
              end) as [results|e'] eqn:Hres.
    + simpl. destruct results as [|r results]; [discriminate|].
      destruct (Split.count_successful (r :: results)) as [k|e'] eqn:Hk;
        [discriminate|].
      simpl. intros H. injection H as <-. exact (Hcount _ _ Hk).
    + simpl. intros H. injection H as <-.
      destruct recipe_name as [n|]; [|discriminate].
      destruct (String.eqb n ""); [discriminate|]. exact (Hby _ _ _ Hres).
Qed.

(** ** Alerts of the module variant *)

(** [InventoryManager.check_alerts] calls [days_until_expiry] on every
    reagent, a method that the [Reagent] of [models.py] does not define: it
    returns the empty list on an empty inventory and raises
    [AttributeError] as soon as one reagent is stored, whatever its stock
    and expiry date. *)
Theorem split_check_alerts_spec (now : datetime) (im : Split.InventoryManager) :
  (Split.im_reagents im = ∅ -> Split.check_alerts now im = Ok []) /\
  (Split.im_reagents im <> ∅ -> Split.check_alerts now im = Err AttributeError).
Proof.
  unfold Split.check_alerts, Split.get_low_stock_reagents,
    Split.reagent_values.
  split.
  - intros ->. rewrite map_to_list_empty. reflexivity.
  - intros Hne.
    destruct (map_to_list (Split.im_reagents im)) as [|[n r] l] eqn:E.
    + apply map_to_list_empty_iff in E. contradiction.
    + reflexivity.
Qed.

(** ** Suppliers of the module variant *)

(** [associate_supplier_with_reagent] answers true exactly when both names
    are known; it then lists the reagent with the supplier, keeps a list
    without repetition free of repetition, touches no other supplier, and
    has no further effect when repeated. *)
Theorem split_associate_supplier_spec (supplier_name reagent_name : string)
    (im : Split.InventoryManager) :
  let out := Split.associate_supplier_with_reagent supplier_name
               reagent_name im in
  (fst out = true <->
   is_Some (Split.im_suppliers im !! supplier_name) /\
   is_Some (Split.im_reagents im !! reagent_name)) /\
  (fst out = false -> snd out = im) /\
  (forall supplier,
     fst out = true ->
     Split.im_suppliers im !! supplier_name = Some supplier ->
     exists supplier',
       Split.im_suppliers (snd out) !! supplier_name = Some supplier' /\
       In reagent_name (Split.s_reagents supplier') /\
       (forall n, In n (Split.s_reagents supplier) ->
                  In n (Split.s_reagents supplier')) /\
       (List.NoDup (Split.s_reagents supplier) ->
        List.NoDup (Split.s_reagents supplier'))) /\
  (forall other, other <> supplier_name ->
     Split.im_suppliers (snd out) !! other = Split.im_suppliers im !! other) /\
  Split.associate_supplier_with_reagent supplier_name reagent_name (snd out)
  = out.
Proof.
  unfold Split.associate_supplier_with_reagent.
  destruct (Split.im_suppliers im !! supplier_name) as [supplier|] eqn:Hs.
  2:{ simpl. rewrite Hs. repeat split; try discriminate; try reflexivity.
      intros [[x Hx] _]. discriminate. }
  destruct (Split.im_reagents im !! reagent_name) as [reagent|] eqn:Hr.
  2:{ simpl. rewrite Hs, Hr. repeat split; try discriminate; try reflexivity.
      intros [_ [x Hx]]. discriminate. }
  destruct (existsb (String.eqb reagent_name) (Split.s_reagents supplier))
    eqn:Hex.
  - simpl. rewrite Hs, Hr, Hex.
    split; [split; [eauto | reflexivity]|].
    split; [discriminate|]. split; [|split; reflexivity].
    intros supplier0 _ H0. injection H0 as <-.
    exists supplier. split; [reflexivity|]. split; [|split; auto].
    apply existsb_exists in Hex as [x [Hin Hx]].
    apply String.eqb_eq in Hx. now subst x.
  - simpl. rewrite lookup_insert_eq, Hr. simpl.
    assert (Hnow : existsb (String.eqb reagent_name)
                     (Split.s_reagents supplier ++ [reagent_name]) = true).
    { rewrite existsb_app. simpl. rewrite String.eqb_refl.
      now rewrite orb_true_r. }
    rewrite Hnow.
    split; [split; [eauto | reflexivity]|].
    split; [discriminate|]. split; [|split].
    + intros supplier0 _ H0. injection H0 as <-.
      eexists. split; [reflexivity|]. simpl.
      split; [apply in_or_app; right; now left|].
      split; [intros n Hn; apply in_or_app; now left|].
      intros Hnd. apply NoDup_app_remove_l with (l := []). simpl.
      apply List.NoDup_rev in Hnd.
      rewrite <- (rev_involutive (Split.s_reagents supplier ++ [reagent_name])).
      apply List.NoDup_rev. rewrite rev_app_distr. simpl.
      constructor; [|exact Hnd].
      intros Hin. apply in_rev in Hin.
      assert (Hc : existsb (String.eqb reagent_name)
                     (Split.s_reagents supplier) = true).
      { apply existsb_exists. exists reagent_name.
        split; [exact Hin | apply String.eqb_refl]. }
      congruence.
    + intros other Hne. now apply lookup_insert_ne.
    + reflexivity.
Qed.

(** ** Recipes of the module variant *)

Lemma split_check_ranges_ok (expected : dict (Q * Q)) :
  Split.check_ranges expected = Ok tt <->
  Forall (fun kv => (fst (snd kv) <= snd (snd kv))%Q) expected.
Proof.
  induction expected as [|[m [lo hi]] expected IH]; simpl.
  - split; [constructor | reflexivity].
  - destruct (Qlt_bool hi lo) eqn:E.
    + split; [discriminate|]. intros H. inversion H as [|? ? Hle _]; subst.
      simpl in Hle. apply Qlt_bool_false_iff in Hle. congruence.
    + apply Qlt_bool_false_iff in E. rewrite IH. split.
      * intros H. constructor; [exact E | exact H].
      * intros H. now inversion H.
Qed.

(** [Recipe.__init__] of the module variant accepts its arguments exactly
    when the name and the objective are not blank, there is at least one
    reagent and one step, and every expected range has its lower bound at or
    below its upper bound; it then stores the arguments unchanged, and every
    other case raises [ValueError]. *)
Theorem split_recipe_init_spec (name objective : string) (reagents : dict Q)
    (procedure : list string) (expected_results : dict (Q * Q)) :
  let out := Split.Recipe_init name objective reagents procedure
               expected_results in
  ((Validator.strip name <> "" /\ Validator.strip objective <> "" /\
    reagents <> [] /\ procedure <> [] /\
    Forall (fun kv => (fst (snd kv) <= snd (snd kv))%Q) expected_results)
   <-> out = Ok {| Split.rc_name := name; Split.rc_objective := objective;
                   Split.rc_reagents := reagents;
                   Split.rc_procedure := procedure;
                   Split.rc_expected_results := expected_results |}) /\
  (forall rc, out = Ok rc ->
     rc = {| Split.rc_name := name; Split.rc_objective := objective;
             Split.rc_reagents := reagents;
             Split.rc_procedure := procedure;
             Split.rc_expected_results := expected_results |}) /\
  (forall e, out = Err e -> e = ValueError).
Proof.
  unfold Split.Recipe_init, Validator.validate_string.
  destruct (String.eqb (Validator.strip name) "") eqn:Hn; simpl.
  { apply String.eqb_eq in Hn.
    repeat split; try discriminate; try congruence. tauto. }
  destruct (String.eqb (Validator.strip objective) "") eqn:Ho; simpl.
  { apply String.eqb_eq in Ho.
    repeat split; try discriminate; try congruence. tauto. }
  apply String.eqb_neq in Hn, Ho.
  destruct reagents as [|r0 rs].
  { repeat split; try discriminate; try congruence. tauto. }
  destruct procedure as [|p0 ps].
  { repeat split; try discriminate; try congruence. tauto. }
  destruct (Split.check_ranges expected_results) as [[]|e] eqn:Hc; simpl.
  - apply split_check_ranges_ok in Hc.
    repeat split; try discriminate; try congruence.
  - assert (He : e = ValueError).
    { clear -Hc. induction expected_results as [|[m [lo hi]] ex IH];
        simpl in Hc; [discriminate|].
      destruct (Qlt_bool hi lo); [congruence | auto]. }
    subst e. repeat split; try discriminate; try congruence.
    intros [_ [_ [_ [_ H]]]]. apply split_check_ranges_ok in H. congruence.
Qed.

(** Whatever [Recipe.validate_reagents] of the module variant accepts passes
    the availability check of [perform_experiment]; the converse fails for
    an expired reagent. *)
Theorem split_validate_reagents_implies_available (now : datetime)
    (rc : Split.Recipe) (available : gmap string Split.Reagent) :
  Split.validate_reagents now rc available = true ->
  Split.reagents_available available (Split.rc_reagents rc) = true /\
  forall n a, In (n, a) (Split.rc_reagents rc) ->
    exists r, available !! n = Some r /\
              (a <= Split.r_inventory r)%Q /\
              Split.is_expired now r = false.
Proof.
  unfold Split.validate_reagents.
  induction (Split.rc_reagents rc) as [|[n0 a0] required IH]; simpl.
  - intros _. split; [reflexivity | intros n a []].
  - destruct (available !! n0) as [r0|] eqn:Hr0; [|discriminate].
    destruct (Qlt_bool (Split.r_inventory r0) a0) eqn:Hstock; simpl;
      [discriminate|].
    destruct (Split.is_expired now r0) eqn:Hexp; [discriminate|].
    intros H. destruct (IH H) as [Hav Hall]. split; [exact Hav|].
    intros n a [Heq|Hin]; [|now apply Hall].
    injection Heq as <- <-. exists r0.
    apply Qlt_bool_false_iff in Hstock. auto.
Qed.

Lemma split_validate_reagents_implies_available_witness :
  let rs := Split.im_reagents
              (Split.inventory_manager Scenario.lab_fresh_acid) in
  Split.validate_reagents Scenario.an_instant Scenario.titration rs = true /\
  Split.reagents_available rs (Split.rc_reagents Scenario.titration) = true /\
  forall n a, In (n, a) (Split.rc_reagents Scenario.titration) ->
    exists r, rs !! n = Some r /\
              (a <= Split.r_inventory r)%Q /\
              Split.is_expired Scenario.an_instant r = false.
Proof.
  intros rs.
  assert (H : Split.validate_reagents Scenario.an_instant Scenario.titration
                rs = true) by (vm_compute; reflexivity).
  split; [exact H|].
  exact (split_validate_reagents_implies_available Scenario.an_instant
           Scenario.titration rs H).
Defined.

(** ** The calculator of the module variant *)



(** [Experiment.record_result] agrees with the calculator: on a declared
    measurement it returns the flag and stores the deviation that
    [evaluate_measurement] computes for the same value and bounds. *)
Theorem split_record_result_agrees_with_calculator
    (e : Split.Experiment) (m : string) (value min_val max_val : Q)
    (raw_data : option (dict Q)) (is_valid : bool) (deviation : Q) :
  dict_get m (Split.rc_expected_results (Split.e_recipe e))
  = Some (min_val, max_val) ->
  Split.evaluate_measurement value min_val max_val
  = Ok (is_valid, deviation) ->
  exists e',
    Split.record_result m value raw_data e = Ret is_valid e' /\
    dict_get m (Split.e_results e') = Some value /\
    (Split.v_deviation <$> dict_get m (Split.e_measurement_validations e'))
    = Some deviation /\
    (Split.v_is_valid <$> dict_get m (Split.e_measurement_validations e'))
    = Some is_valid.
Proof.
  intros Hexp Heval.
  unfold Split.evaluate_measurement in Heval.
  unfold Split.record_result, bind, get, put, lift, ret. simpl.
  rewrite Hexp.
  destruct (py_div (value - (min_val + max_val) / 2)
              ((min_val + max_val) / 2)) as [q|]; [|discriminate].
  simpl in Heval. injection Heval as <- <-.
  eexists. split; [reflexivity|]. simpl.
  rewrite !dict_get_set_eq. repeat split.
Qed.

Lemma split_record_result_agrees_with_calculator_witness :
  let e := Scenario.fresh Scenario.titration in
  dict_get "pH" (Split.rc_expected_results (Split.e_recipe e))
  = Some (6.8, 7.2)%Q /\
  exists is_valid deviation,
    Split.evaluate_measurement 7.1 6.8 7.2 = Ok (is_valid, deviation) /\
    exists e',
      Split.record_result "pH" 7.1 None e = Ret is_valid e' /\
      dict_get "pH" (Split.e_results e') = Some 7.1%Q /\
      (Split.v_deviation <$>
         dict_get "pH" (Split.e_measurement_validations e'))
      = Some deviation /\
      (Split.v_is_valid <$>
         dict_get "pH" (Split.e_measurement_validations e'))
      = Some is_valid.
Proof.
  intros e.
  assert (Hexp : dict_get "pH" (Split.rc_expected_results (Split.e_recipe e))
                 = Some (6.8, 7.2)%Q) by (vm_compute; reflexivity).
  split; [exact Hexp|].
  assert (Heval : exists b d,
            Split.evaluate_measurement 7.1 6.8 7.2 = Ok (b, d))
    by (eexists; eexists; vm_compute; reflexivity).
  destruct Heval as [b [d Heval]]. exists b, d.
  split; [exact Heval|].
  exact (split_record_result_agrees_with_calculator e "pH" 7.1 6.8 7.2 None
           b d Hexp Heval).
Defined.

(** ** Adding and removing a reagent in the module variant *)

(** Removing a reagent that was just added under a free name gives back the
    store as it was and answers true, a second removal answers false and
    changes nothing, but the category and the location of the reagent stay
    registered. *)
Theorem split_add_remove_reagent (reagent : Split.Reagent)
    (im : Split.InventoryManager) :
  Split.im_reagents im !! Split.r_name reagent = None ->
  let added := Split.add_reagent reagent im in
  let out := Split.remove_reagent (Split.r_name reagent) added in
  Split.get_reagent (Split.r_name reagent) added = Some reagent /\
  fst out = true /\
  Split.im_reagents (snd out) = Split.im_reagents im /\
  Split.remove_reagent (Split.r_name reagent) (snd out) = (false, snd out) /\
  Split.r_category reagent ∈ Split.im_categories (snd out) /\
  Split.r_location reagent ∈ Split.im_locations (snd out).
Proof.
  intros Hfree added out. subst added out.
  unfold Split.remove_reagent, Split.get_reagent, Split.add_reagent. simpl.
  rewrite lookup_insert_eq. simpl.
  rewrite delete_insert_eq, delete_id by exact Hfree. rewrite Hfree.
  repeat split; set_solver.
Qed.

Lemma split_add_remove_reagent_witness :
  let reagent := Scenario.split_acid 100 None in
  let im := Split.InventoryManager_init in
  Split.im_reagents im !! Split.r_name reagent = None /\
  let added := Split.add_reagent reagent im in
  let out := Split.remove_reagent (Split.r_name reagent) added in
  Split.get_reagent (Split.r_name reagent) added = Some reagent /\
  fst out = true /\
  Split.im_reagents (snd out) = Split.im_reagents im /\
  Split.remove_reagent (Split.r_name reagent) (snd out) = (false, snd out) /\
  Split.r_category reagent ∈ Split.im_categories (snd out) /\
  Split.r_location reagent ∈ Split.im_locations (snd out).
Proof.
  intros reagent im.
  assert (H : Split.im_reagents im !! Split.r_name reagent = None)
    by reflexivity.
  split; [exact H|].
  exact (split_add_remove_reagent reagent im H).
Defined.

(** ** Witnesses of earlier properties *)

Lemma mono_perform_experiment_atomic_witness :
  let lab := Scenario.mono_lab 5 None in
  (exists recipe n a,
     Mono.recipes lab !! "Titration" = Some recipe /\
     In (n, a) (Mono.rc_reagents recipe) /\
     exists r, Mono.reagents lab !! n = Some r /\ (Mono.r_inventory r < a)%Q) /\
  exists err,
    Mono.perform_experiment Scenario.an_instant "Titration" ["Ana"]
      [("pH", 7%Q)] "" lab
    = Ret (inl err) lab.
Proof.
  intros lab.
  assert (H : exists recipe n a,
            Mono.recipes lab !! "Titration" = Some recipe /\
            In (n, a) (Mono.rc_reagents recipe) /\
            exists r, Mono.reagents lab !! n = Some r /\
                      (Mono.r_inventory r < a)%Q).
  { exists Scenario.mono_titration, "Acid", 10%Q.
    split; [vm_compute; reflexivity|]. split; [left; reflexivity|].
    eexists. split; [vm_compute; reflexivity | vm_compute; reflexivity]. }
  split; [exact H|].
  destruct H as [recipe [n [a [Hrecipe [Hin [r [Hr Hlt]]]]]]].
  apply (mono_perform_experiment_atomic Scenario.an_instant "Titration"
           ["Ana"] [("pH", 7%Q)] "" lab).
  right. exists recipe, n, a. split; [exact Hrecipe|]. split; [exact Hin|].
  right. exists r. split; [exact Hr|]. left. exact Hlt.
Defined.

Lemma split_perform_experiment_refuses_witness :
  let lab := Scenario.split_lab [Scenario.split_acid 5 None]
               [Scenario.titration] in
  (exists r, Split.im_reagents (Split.inventory_manager lab) !! "Acid" = Some r /\
             (Split.r_inventory r < 10)%Q) /\
  Split.perform_experiment Scenario.an_instant "Titration" ["Ana"]
    [("pH", 7%Q)] "" lab
  = Ret None lab.
Proof.
  intros lab.
  assert (H : exists r,
            Split.im_reagents (Split.inventory_manager lab) !! "Acid" = Some r /\
            (Split.r_inventory r < 10)%Q)
    by (eexists; split; vm_compute; reflexivity).
  split; [exact H|].
  destruct H as [r [Hr Hlt]].
  apply (split_perform_experiment_refuses Scenario.an_instant "Titration"
           ["Ana"] [("pH", 7%Q)] "" lab).
  right. exists Scenario.titration, "Acid", 10%Q.
  split; [vm_compute; reflexivity|]. split; [left; reflexivity|].
  right. exists r. split; [exact Hr | exact Hlt].
Defined.

Lemma mono_place_order_known_witness :
  let lab := Scenario.mono_lab 100 None in
  let now := Scenario.an_instant in
  (exists reagent supplier,
     Mono.reagents lab !! "Acid" = Some reagent /\
     Mono.suppliers lab !! "Merck" = Some supplier) /\
  exists order lab',
    Mono.place_order now "Acid" 25 "Merck" lab = (inr order, lab') /\
    Mono.o_status order = "pendiente" /\
    Mono.o_order_date order = dt_day now /\
    Mono.o_expected_delivery order = Mono.o_order_date order + 7.
Proof.
  intros lab now.
  assert (H : exists reagent supplier,
            Mono.reagents lab !! "Acid" = Some reagent /\
            Mono.suppliers lab !! "Merck" = Some supplier)
    by (eexists; eexists; split; vm_compute; reflexivity).
  split; [exact H|].
  destruct H as [reagent [supplier [Hr Hs]]].
  destruct (mono_place_order_known now "Acid" "Merck" 25 lab reagent
              supplier Hr Hs)
    as [order [lab' [Hout [Hstatus [Hdate [Hdue _]]]]]].
  exists order, lab'. auto.
Defined.

(** ** Cost and stock views of the module variant *)

Lemma split_debit_all_keeps_cost (now : datetime) (reason : string)
    (required : dict Q) (im : Split.InventoryManager) (n : string) :
  Split.r_cost <$> Split.im_reagents (Split.debit_all now reason required im) !! n
  = Split.r_cost <$> Split.im_reagents im !! n.
Proof.
  revert im. induction required as [|[n0 a0] required IH]; intros im; simpl;
    [reflexivity|].
  rewrite IH. unfold Split.update_stock.
  destruct (Split.im_reagents im !! n0) as [r0|] eqn:Hr0; [|reflexivity].
  simpl. destruct (decide (n0 = n)) as [->|Hne].
  - rewrite lookup_insert_eq, Hr0. simpl. unfold Split.update_inventory.
    destruct (Qlt_bool _ 0); [reflexivity|].
    destruct (Qlt_bool 0 _); reflexivity.
  - now rewrite lookup_insert_ne.
Qed.

(** [Recipe.calculate_total_cost] of the module variant raises [ValueError]
    exactly when a required reagent is missing, and its answer does not
    change when stock is debited: it is the same before and after the
    updates made by [perform_experiment]. *)
Theorem split_calculate_total_cost_spec (rc : Split.Recipe)
    (im : Split.InventoryManager) :
  (Split.calculate_total_cost rc (Split.im_reagents im) = Err ValueError <->
   exists n, In n (dict_keys (Split.rc_reagents rc)) /\
             Split.im_reagents im !! n = None) /\
  (forall e, Split.calculate_total_cost rc (Split.im_reagents im) = Err e ->
             e = ValueError) /\
  (forall now reason required,
     Split.calculate_total_cost rc
       (Split.im_reagents (Split.debit_all now reason required im))
     = Split.calculate_total_cost rc (Split.im_reagents im)).
Proof.
  unfold Split.calculate_total_cost. split; [|split].
  - generalize 0%Q.
    induction (Split.rc_reagents rc) as [|[n0 a0] required IH]; intros acc;
      simpl.
    + split; [discriminate|]. intros [n [[] _]].
    + destruct (Split.im_reagents im !! n0) as [r0|] eqn:Hr0.
      * rewrite IH. split.
        -- intros [n [Hin Hn]]. exists n. auto.
        -- intros [n [[<-|Hin] Hn]]; [congruence|]. exists n. auto.
      * split; [|reflexivity]. intros _. exists n0. auto.
  - generalize 0%Q.
    induction (Split.rc_reagents rc) as [|[n0 a0] required IH]; intros acc e;
      simpl; [discriminate|].
    destruct (Split.im_reagents im !! n0); [apply IH | congruence].
  - intros now reason required. generalize 0%Q.
    induction (Split.rc_reagents rc) as [|[n0 a0] rest IH]; intros acc;
      simpl; [reflexivity|].
    pose proof (split_debit_all_keeps_cost now reason required im n0) as Hc.
    destruct (Split.im_reagents (Split.debit_all now reason required im) !! n0)
      as [r1|];
      destruct (Split.im_reagents im !! n0) as [r0|]; try discriminate;
      [|reflexivity].
    simpl in Hc. injection Hc as ->. apply IH.
Qed.

(** [get_low_stock_reagents] and [get_expired_reagents] of the module
    variant list exactly the stored reagents that are at or below their
    threshold, respectively past their expiry instant; the expired view is
    empty when no reagent has an expiry date. *)
Theorem split_stock_views_spec (now : datetime) (im : Split.InventoryManager)
    (r : Split.Reagent) :
  (In r (Split.get_low_stock_reagents im) <->
   (exists n, Split.im_reagents im !! n = Some r) /\
   (Split.r_inventory r <= Split.r_min_threshold r)%Q) /\
  (In r (Split.get_expired_reagents now im) <->
   (exists n, Split.im_reagents im !! n = Some r) /\
   Split.is_expired now r = true) /\
  ((forall n r', Split.im_reagents im !! n = Some r' ->
                 Split.r_expiry_date r' = None) ->
   Split.get_expired_reagents now im = []).
Proof.
  assert (Hvalues : forall x,
            In x (Split.reagent_values im) <->
            exists n, Split.im_reagents im !! n = Some x).
  { intros x. unfold Split.reagent_values. rewrite in_map_iff. split.
    - intros [[n y] [Hy Hin]]. simpl in Hy. subst y. exists n.
      apply elem_of_map_to_list. now apply list_elem_of_In.
    - intros [n Hn]. exists (n, x). split; [reflexivity|].
      apply list_elem_of_In. now apply elem_of_map_to_list. }
  unfold Split.get_low_stock_reagents, Split.get_expired_reagents.
  split; [|split].
  - rewrite filter_In, Hvalues. unfold Split.is_low_stock.
    now rewrite Qle_bool_iff.
  - now rewrite filter_In, Hvalues.
  - intros Hnone.
    destruct (List.filter (Split.is_expired now) (Split.reagent_values im))
      as [|x l] eqn:E; [reflexivity|].
    assert (Hx : In x (List.filter (Split.is_expired now)
                         (Split.reagent_values im)))
      by (rewrite E; now left).
    apply filter_In in Hx as [Hin Hexp]. apply Hvalues in Hin as [n Hn].
    unfold Split.is_expired in Hexp. rewrite (Hnone n x Hn) in Hexp.
    discriminate.
Qed.
